(** * Discipline classifier: taxonomy, result validation and expert roles

    A shallow embedding of the pure logic of the discipline classifier
    agent (parsing and repair of the classification oracle's artifact, the
    validation pass, the expert-role derivation, the section-type inference
    of the paper parser and the storage payload of a classification),
    followed by the properties the specification states about it. *)

From Stdlib Require Import List ZArith QArith String Ascii Bool Lia Lqa.
From Stdlib Require Import Permutation Sorted.
Import ListNotations.

Local Open Scope string_scope.
Local Open Scope list_scope.
Local Open Scope Z_scope.

(* ------------------------------------------------------------------ *)
(** * The Python primitives the code relies on *)

Module Py.

(** Keys of a [dict]: equality is decided the way Python compares the
    key types used here ([int] and [str]). *)
Class Key (K : Type) := {
  key_eqb : K -> K -> bool;
  key_eqb_spec : forall x y, reflect (x = y) (key_eqb x y)
}.

#[global] Instance Key_Z : Key Z :=
  {| key_eqb := Z.eqb; key_eqb_spec := Z.eqb_spec |}.

#[global] Instance Key_string : Key string :=
  {| key_eqb := String.eqb; key_eqb_spec := String.eqb_spec |}.

(** A [dict] literal, in insertion order. *)
Definition dict (K V : Type) : Type := list (K * V).

(** [d.get(k)]: the value bound to [k], [None] when there is none. *)
Fixpoint get {K V} `{Key K} (d : dict K V) (k : K) : option V :=
  match d with
  | [] => None
  | (k', v) :: d' => if key_eqb k' k then Some v else get d' k
  end.

(** [d.get(k, default)]. *)
Definition get_default {K V} `{Key K} (d : dict K V) (k : K) (default : V) : V :=
  match get d k with
  | Some v => v
  | None => default
  end.

(** [list(d.values())]. *)
Definition values {K V} (d : dict K V) : list V := map snd d.

(** The value read from a decoded JSON object by [obj.get(key, default)],
    where the field [key], when present, holds [Some] value. *)
Definition field_get {V} (field : option V) (default : V) : V :=
  match field with
  | Some v => v
  | None => default
  end.

(** Numbers as [json.loads] yields them: an [int], or a [float] that is
    finite (its exact rational value) or one of the three special values
    the decoder accepts ([Infinity], [-Infinity], [NaN]).  The code only
    compares numbers and never computes with them, so no rounding is
    involved. *)
Inductive number : Type :=
| Int (z : Z)
| Float (q : Q)
| Inf
| NegInf
| NaN.

Definition finite (a : number) : option Q :=
  match a with
  | Int z => Some (inject_Z z)
  | Float q => Some q
  | _ => None
  end.

Definition Qltb (p q : Q) : bool := negb (Qle_bool q p).

(** [a < b] (and [b > a]): false whenever one side is [NaN]. *)
Definition lt (a b : number) : bool :=
  match a, b with
  | NaN, _ | _, NaN => false
  | _, NegInf | Inf, _ => false
  | NegInf, _ | _, Inf => true
  | _, _ =>
      match finite a, finite b with
      | Some p, Some q => Qltb p q
      | _, _ => false
      end
  end.

(** [a == b]. *)
Definition eqb (a b : number) : bool :=
  match a, b with
  | NaN, _ | _, NaN => false
  | Inf, Inf | NegInf, NegInf => true
  | _, _ =>
      match finite a, finite b with
      | Some p, Some q => Qeq_bool p q
      | _, _ => false
      end
  end.

(** The builtin [max(a, b)]: the first argument is kept unless the second
    is strictly greater. *)
Definition max (a b : number) : number := if lt a b then b else a.

(** The builtin [min(a, b)]: the first argument is kept unless the second
    is strictly smaller. *)
Definition min (a b : number) : number := if lt b a then b else a.

(** [sorted(l, key=key, reverse=True)].  The builtin sort is stable and,
    with [reverse=True], still keeps elements with equal keys in their
    original order; it only uses [<] on the keys.  On keys that are
    totally ordered by [<] this insertion sort returns the same list. *)
Fixpoint insert_reverse {A} (key : A -> number) (x : A) (l : list A) : list A :=
  match l with
  | [] => [x]
  | y :: l' =>
      if lt (key x) (key y) then y :: insert_reverse key x l' else x :: l
  end.

Definition sorted_reverse {A} (key : A -> number) (l : list A) : list A :=
  fold_right (insert_reverse key) [] l.

(** The slice [l[:n]] for an [int] [n]: a negative [n] counts from the
    end. *)
Definition slice_to {A} (l : list A) (n : Z) : list A :=
  if n <? 0 then firstn (Z.to_nat (Z.of_nat (List.length l) + n)) l
  else firstn (Z.to_nat n) l.

(** [l[i] = x] on a list long enough; the code only assigns to positions
    of the five-entry default roster (see [default_roster_length]). *)
Fixpoint setitem {A} (l : list A) (i : nat) (x : A) : list A :=
  match l, i with
  | [], _ => []
  | _ :: l', O => x :: l'
  | y :: l', S i' => y :: setitem l' i' x
  end.

(** [enumerate(l)] followed by a comprehension: [f i x] for the element
    [x] at index [i], counting from [start]. *)
Fixpoint enumerate_map {A B} (f : Z -> A -> B) (start : Z) (l : list A) : list B :=
  match l with
  | [] => []
  | x :: l' => f start x :: enumerate_map f (start + 1) l'
  end.

(** [s.lower()] on ASCII text: the letters [A]..[Z] are mapped to [a]..[z],
    every other byte is kept.  [get_discipline_by_name] compares with the
    23 names of the table, all ASCII; elsewhere [str.lower] is a
    parameter. *)
Definition lower_ascii (c : ascii) : ascii :=
  let n := nat_of_ascii c in
  if ((65 <=? n) && (n <=? 90))%nat then ascii_of_nat (n + 32) else c.

Fixpoint lower (s : string) : string :=
  match s with
  | EmptyString => EmptyString
  | String c s' => String (lower_ascii c) (lower s')
  end.

(** [sub in s] on strings: [sub] occurs in [s] as a contiguous run. *)
Fixpoint str_in (sub s : string) : bool :=
  if String.prefix sub s then true
  else match s with
       | EmptyString => false
       | String _ s' => str_in sub s'
       end.

(** [x or y] on strings: [x] unless it is empty. *)
Definition str_or (x y : string) : string :=
  match x with
  | EmptyString => y
  | _ => x
  end.

End Py.

(* ------------------------------------------------------------------ *)
(** * discipline_models.py *)

Module DisciplineDefinition.
Record t : Type := mk {
  id : Z;
  name : string;
  keywords : list string;
  description : string
}.
End DisciplineDefinition.

Module ExpertRole.
Record t : Type := mk {
  id : Z;
  name : string;
  focus : string;
  model : string;
  is_dynamic : bool
}.
End ExpertRole.

(** [DISCIPLINES]: the 23 discipline definitions, keyed by id. *)
Definition DISCIPLINES : Py.dict Z DisciplineDefinition.t :=
  [ (1, DisciplineDefinition.mk 1 "Computer Science"
        [ "AI"; "ML"; "machine learning"; "neural network"; "deep learning";
          "algorithm"; "software"; "programming"; "NLP"; "computer vision";
          "data mining"; "artificial intelligence"; "computing"; "database" ]
        "Artificial intelligence, machine learning, algorithms, software engineering");
    (2, DisciplineDefinition.mk 2 "Medicine"
        [ "clinical"; "diagnosis"; "treatment"; "patient"; "medical";
          "disease"; "therapy"; "hospital"; "physician"; "healthcare";
          "surgical"; "pharmaceutical"; "pathology"; "oncology" ]
        "Clinical research, diagnostics, therapeutics, patient care");
    (3, DisciplineDefinition.mk 3 "Chemistry"
        [ "compound"; "reaction"; "synthesis"; "molecule"; "chemical";
          "catalyst"; "polymer"; "organic"; "inorganic"; "spectroscopy";
          "electrochemistry"; "biochemistry"; "analytical" ]
        "Chemical compounds, reactions, synthesis, molecular analysis");
    (4, DisciplineDefinition.mk 4 "Biology"
        [ "gene"; "cell"; "evolution"; "bioinformatics"; "protein"; "DNA";
          "RNA"; "genome"; "species"; "organism"; "molecular"; "ecology";
          "genetics"; "microbiology"; "neuroscience" ]
        "Genetics, cellular biology, evolution, bioinformatics");
    (5, DisciplineDefinition.mk 5 "Materials Science"
        [ "nanomaterial"; "crystal"; "alloy"; "polymer"; "semiconductor";
          "ceramic"; "composite"; "thin film"; "surface"; "nanoparticle";
          "graphene"; "superconductor"; "biomaterial" ]
        "Nanomaterials, crystals, alloys, material properties");
    (6, DisciplineDefinition.mk 6 "Physics"
        [ "quantum"; "particle"; "thermodynamics"; "mechanics"; "optics";
          "electromagnetic"; "relativity"; "condensed matter"; "nuclear";
          "astrophysics"; "photon"; "wave"; "energy" ]
        "Quantum mechanics, particle physics, thermodynamics");
    (7, DisciplineDefinition.mk 7 "Geology"
        [ "rock"; "mineral"; "tectonic"; "sediment"; "volcanic";
          "earthquake"; "geochemistry"; "stratigraphy"; "paleontology";
          "hydrology"; "geophysics"; "geological" ]
        "Rocks, minerals, tectonics, geological processes");
    (8, DisciplineDefinition.mk 8 "Psychology"
        [ "behavior"; "cognitive"; "psychological"; "mental"; "emotion";
          "perception"; "memory"; "personality"; "therapy"; "disorder";
          "consciousness"; "developmental"; "social psychology" ]
        "Behavior, cognition, mental processes, psychological research");
    (9, DisciplineDefinition.mk 9 "Art"
        [ "visual art"; "music"; "aesthetic"; "artistic"; "painting";
          "sculpture"; "performance"; "design"; "creative"; "museum";
          "cultural heritage"; "art history" ]
        "Visual arts, music, aesthetics, artistic expression");
    (10, DisciplineDefinition.mk 10 "History"
        [ "historical"; "era"; "civilization"; "ancient"; "medieval";
          "modern history"; "archaeology"; "archive"; "heritage";
          "historiography"; "historical event"; "dynasty" ]
        "Historical events, eras, civilizations, historiography");
    (11, DisciplineDefinition.mk 11 "Geography"
        [ "spatial"; "regional"; "climate"; "landscape"; "urban"; "GIS";
          "cartography"; "territory"; "migration"; "population";
          "geospatial"; "environmental geography" ]
        "Spatial analysis, regional studies, climate, landscapes");
    (12, DisciplineDefinition.mk 12 "Sociology"
        [ "social"; "culture"; "institution"; "community"; "inequality";
          "class"; "gender"; "race"; "ethnicity"; "social structure";
          "sociological"; "social change"; "social behavior" ]
        "Social structures, culture, institutions, social behavior");
    (13, DisciplineDefinition.mk 13 "Business"
        [ "management"; "marketing"; "finance"; "entrepreneurship";
          "strategy"; "organization"; "corporate"; "MBA"; "leadership";
          "innovation"; "business model"; "supply chain" ]
        "Management, marketing, finance, business strategy");
    (14, DisciplineDefinition.mk 14 "Political Science"
        [ "government"; "policy"; "political"; "democracy"; "election";
          "parliament"; "legislation"; "diplomacy";
          "international relations"; "political party"; "voting"; "governance" ]
        "Government, policy, political systems, international relations");
    (15, DisciplineDefinition.mk 15 "Economics"
        [ "market"; "equilibrium"; "financial"; "monetary"; "fiscal";
          "trade"; "GDP"; "inflation"; "microeconomics"; "macroeconomics";
          "econometric"; "price"; "demand"; "supply" ]
        "Markets, economic theory, financial systems, trade");
    (16, DisciplineDefinition.mk 16 "Philosophy"
        [ "ethics"; "logic"; "metaphysics"; "epistemology"; "ontology";
          "moral"; "philosophical"; "reasoning"; "existential";
          "phenomenology"; "aesthetics philosophy"; "mind" ]
        "Ethics, logic, metaphysics, epistemology, philosophical reasoning");
    (17, DisciplineDefinition.mk 17 "Mathematics"
        [ "theorem"; "proof"; "equation"; "algebra"; "calculus"; "topology";
          "number theory"; "statistics"; "probability"; "differential";
          "integral"; "mathematical" ]
        "Theorems, proofs, equations, mathematical analysis");
    (18, DisciplineDefinition.mk 18 "Engineering"
        [ "design"; "system"; "optimization"; "mechanical"; "electrical";
          "civil"; "structural"; "control"; "robotics"; "manufacturing";
          "engineering"; "prototype"; "simulation" ]
        "Engineering design, systems, optimization, technical implementation");
    (19, DisciplineDefinition.mk 19 "Environmental Science"
        [ "ecology"; "pollution"; "climate change"; "sustainability";
          "biodiversity"; "conservation"; "ecosystem"; "carbon";
          "environmental impact"; "renewable"; "green" ]
        "Ecology, pollution, climate change, sustainability");
    (20, DisciplineDefinition.mk 20 "Agricultural and Food Sciences"
        [ "crop"; "food technology"; "agriculture"; "livestock"; "soil";
          "irrigation"; "harvest"; "nutrition"; "food safety"; "agronomy";
          "horticulture"; "aquaculture" ]
        "Crops, food technology, agriculture, nutrition");
    (21, DisciplineDefinition.mk 21 "Education"
        [ "pedagogy"; "curriculum"; "learning"; "teaching"; "student";
          "classroom"; "educational"; "assessment"; "literacy";
          "higher education"; "school"; "instruction" ]
        "Pedagogy, curriculum, learning, teaching methods");
    (22, DisciplineDefinition.mk 22 "Law"
        [ "legal"; "regulation"; "case"; "court"; "statute"; "contract";
          "liability"; "criminal"; "constitutional"; "jurisdiction";
          "litigation"; "judicial" ]
        "Legal systems, regulations, case law, jurisprudence");
    (23, DisciplineDefinition.mk 23 "Linguistics"
        [ "language"; "syntax"; "semantics"; "phonology"; "morphology";
          "discourse"; "linguistic"; "grammar"; "translation";
          "sociolinguistics"; "pragmatics"; "corpus" ]
        "Language, syntax, semantics, linguistic analysis") ].

(** [DISCIPLINE_TO_EXPERT_MAPPING]: for a discipline name, the suggested
    expert roles in order of priority. *)
Definition DISCIPLINE_TO_EXPERT_MAPPING : Py.dict string (list string) :=
  [ ("Computer Science",
      [ "Algorithm & Complexity Expert"; "Experimental Design Expert";
        "Systems & Implementation Expert"; "Related Work & Novelty Expert";
        "Clarity & Presentation Expert" ]);
    ("Mathematics",
      [ "Statistical Methodologist"; "Formal Methods Expert" ]);
    ("Physics",
      [ "Theoretical Physicist"; "Experimental Methodologist" ]);
    ("Engineering",
      [ "Systems Engineering Expert"; "Technical Reviewer" ]);
    ("Chemistry",
      [ "Analytical Chemistry Expert"; "Experimental Methodologist" ]);
    ("Biology",
      [ "Molecular Biology Expert"; "Bioinformatics Specialist" ]);
    ("Materials Science",
      [ "Materials Characterization Expert"; "Experimental Methodologist" ]);
    ("Medicine",
      [ "Clinical Research Expert"; "Biostatistician" ]);
    ("Environmental Science",
      [ "Environmental Impact Assessor"; "Ecological Methodologist" ]);
    ("Agricultural and Food Sciences",
      [ "Agricultural Research Expert"; "Food Safety Specialist" ]);
    ("Economics",
      [ "Empirical Economics Scholar"; "Causal Inference Expert" ]);
    ("Business",
      [ "Management Research Expert"; "Quantitative Finance Specialist" ]);
    ("Psychology",
      [ "Experimental Psychology Expert"; "Statistical Methodologist" ]);
    ("Sociology",
      [ "Qualitative Research Expert"; "Social Statistics Specialist" ]);
    ("Political Science",
      [ "Policy Analysis Expert"; "Comparative Politics Scholar" ]);
    ("Education",
      [ "Educational Research Methodologist"; "Assessment Specialist" ]);
    ("Philosophy",
      [ "Philosophical Argumentation Expert"; "Logic Specialist" ]);
    ("History",
      [ "Historical Research Methodologist"; "Archival Expert" ]);
    ("Art",
      [ "Art Criticism Expert"; "Aesthetic Theory Specialist" ]);
    ("Linguistics",
      [ "Linguistic Analysis Expert"; "Corpus Linguistics Specialist" ]);
    ("Law",
      [ "Legal Research Expert"; "Case Analysis Specialist" ]);
    ("Geography",
      [ "Spatial Analysis Expert"; "GIS Methodologist" ]);
    ("Geology",
      [ "Geological Analysis Expert"; "Field Methods Specialist" ]) ].

(** [DEFAULT_EXPERT_ROLES]. *)
Definition DEFAULT_EXPERT_ROLES : list string :=
  [ "Methodology Expert"; "Domain Expert"; "Statistical Reviewer";
    "Literature Expert"; "Integration Specialist" ].

(** [DEFAULT_EXPERT_CONFIGS]: the generic five-role roster, keyed by
    position. *)
Definition DEFAULT_EXPERT_CONFIGS : Py.dict Z ExpertRole.t :=
  [ (1, ExpertRole.mk 1 "Methodology Expert"
        "Research methodology, experimental design, validity of approach"
        "sonnet" true);
    (2, ExpertRole.mk 2 "Technical Expert"
        "Technical soundness, implementation details, reproducibility"
        "sonnet" true);
    (3, ExpertRole.mk 3 "Domain Expert"
        "Domain knowledge, literature integration, theoretical foundation"
        "sonnet" true);
    (4, ExpertRole.mk 4 "Related Work Expert"
        "Literature coverage, novelty assessment, positioning"
        "haiku" true);
    (5, ExpertRole.mk 5 "Presentation Expert"
        "Clarity, logical coherence, writing quality"
        "haiku" true) ].

(** [DISCIPLINE_EXPERT_FOCUS]: for a discipline name, the focus recorded for
    a role name. *)
Definition DISCIPLINE_EXPERT_FOCUS : Py.dict string (Py.dict string string) :=
  [ ("Computer Science",
      [ ("Algorithm & Complexity Expert",
         "Algorithm correctness, computational complexity, theoretical analysis, proof validity");
        ("Experimental Design Expert",
         "Benchmark selection, baseline fairness, ablation studies, hyperparameter sensitivity, statistical significance");
        ("Systems & Implementation Expert",
         "Code quality, reproducibility, scalability, engineering practices, open-source availability");
        ("Related Work & Novelty Expert",
         "Literature coverage, novelty claims, fair comparison with prior work, contribution clarity");
        ("Clarity & Presentation Expert",
         "Writing quality, figure clarity, notation consistency, logical flow") ]);
    ("Engineering",
      [ ("Systems Engineering Expert",
         "System design, architecture validity, integration aspects");
        ("Technical Reviewer",
         "Implementation feasibility, engineering constraints, practical applicability");
        ("Domain Expert",
         "Domain-specific requirements, standards compliance");
        ("Experimental Methodologist",
         "Testing methodology, validation procedures, measurement accuracy");
        ("Integration Specialist",
         "Overall coherence, cross-system compatibility") ]) ].


(** [get_discipline_by_id]. *)
Definition get_discipline_by_id (discipline_id : Z) : option DisciplineDefinition.t :=
  Py.get DISCIPLINES discipline_id.

(** [get_discipline_by_name]: case-insensitive exact match on the name. *)
Definition get_discipline_by_name (name : string) : option DisciplineDefinition.t :=
  let name_lower := Py.lower name in
  find (fun disc => Py.lower (DisciplineDefinition.name disc) =? name_lower)%string
       (Py.values DISCIPLINES).

(** [get_all_discipline_names]. *)
Definition get_all_discipline_names : list string :=
  map DisciplineDefinition.name (Py.values DISCIPLINES).

(** The model distribution of the bespoke roster, [models] in
    [get_expert_roles_for_disciplines]. *)
Definition models : list string :=
  [ "sonnet"; "sonnet"; "sonnet"; "haiku"; "haiku" ].

(** The focus of a bespoke role: the recorded one, or the generated
    sentence. *)
Definition expert_focus (focus_mapping : Py.dict string string)
    (expert_name primary : string) : string :=
  Py.get_default focus_mapping expert_name
    ("Expert analysis from " ++ expert_name ++ " perspective for " ++ primary)%string.

(** [get_expert_roles_for_disciplines discipline_names num_experts]. *)
Definition get_expert_roles_for_disciplines
    (discipline_names : list string) (num_experts : Z) : list ExpertRole.t :=
  match discipline_names with
  | [] => Py.slice_to (Py.values DEFAULT_EXPERT_CONFIGS) num_experts
  | primary :: _ =>
      let suggested := Py.get_default DISCIPLINE_TO_EXPERT_MAPPING primary [] in
      let focus_mapping := Py.get_default DISCIPLINE_EXPERT_FOCUS primary [] in
      if (5 <=? List.length suggested)%nat then
        Py.enumerate_map
          (fun i expert_name =>
             ExpertRole.mk (i + 1) expert_name
               (expert_focus focus_mapping expert_name primary)
               (if i <? Z.of_nat (List.length models)
                then nth (Z.to_nat i) models "haiku" else "haiku")
               true)
          0 (Py.slice_to suggested num_experts)
      else
        let experts := Py.values DEFAULT_EXPERT_CONFIGS in
        let experts :=
          if (1 <=? List.length suggested)%nat then
            Py.setitem experts 2
              (ExpertRole.mk 3 (nth 0 suggested "")
                 ("Domain expertise in " ++ primary)%string "sonnet" true)
          else experts in
        let experts :=
          if (2 <=? List.length suggested)%nat then
            Py.setitem experts 3
              (ExpertRole.mk 4 (nth 1 suggested "")
                 ("Technical expertise related to " ++ primary)%string "haiku" true)
          else experts in
        Py.slice_to experts num_experts
  end.

(* ------------------------------------------------------------------ *)
(** * review_models.py *)

Module DisciplineResult.
Record t : Type := mk {
  discipline_id : Z;
  name : string;
  relevance_score : Py.number;
  evidence : string
}.
End DisciplineResult.

Module DisciplineClassification.
Record t : Type := mk {
  disciplines : list DisciplineResult.t;
  confidence_score : Py.number;
  classification_reasoning : string;
  discipline_classification_id : string
}.

(** [get_discipline_names]. *)
Definition get_discipline_names (self : t) : list string :=
  map DisciplineResult.name (disciplines self).
End DisciplineClassification.

(* ------------------------------------------------------------------ *)
(** * discipline_classifier_service.py *)

(** One element of the [disciplines] list written by the classification
    oracle, an object with the keys [id], [name], [score] and [evidence].
    Each key may be missing ([None]); a key that is present holds a value
    of the type the prompt asks for: an integer id, a number as score,
    strings as name and evidence.  On values of other types the Python code
    raises [TypeError] or [AttributeError], or stores a value that
    contradicts the annotations of [DisciplineResult]; such artifacts are
    outside this model. *)
Record oracle_entry : Type := {
  entry_id : option Z;
  entry_name : option string;
  entry_score : option Py.number;
  entry_evidence : option string
}.

(** The JSON object written by the classification oracle, after
    [json.loads]. *)
Record oracle_data : Type := {
  data_disciplines : option (list oracle_entry);
  data_confidence : option Py.number;
  data_reasoning : option string
}.

(** What [_parse_classification_result] finds at [output_file] when it
    returns: no file, text on which [json.loads] raises [JSONDecodeError],
    or a decoded object.  The files on which it raises are added by
    [output_artifact] below. *)
Inductive output_file : Type :=
| FileAbsent
| FileNotJson
| FileJson (data : oracle_data).

(** [min(1.0, max(0.0, x))]. *)
Definition clamp (x : Py.number) : Py.number :=
  Py.min (Py.Float 1.0) (Py.max (Py.Float 0.0) x).

(** [_fallback_classification]. *)
Definition _fallback_classification : DisciplineClassification.t :=
  DisciplineClassification.mk
    [ DisciplineResult.mk 1 "Computer Science" (Py.Float 0.5)
        "Fallback due to classification failure" ]
    (Py.Float 0.3)
    "Fallback classification due to processing error"
    "".

(** The loop of [_parse_classification_result] over the oracle's entries:
    an entry is appended when its id resolves. *)
Fixpoint parse_disciplines (entries : list oracle_entry) : list DisciplineResult.t :=
  match entries with
  | [] => []
  | disc_data :: rest =>
      let disc_id := Py.field_get (entry_id disc_data) 0 in
      let disc_name := Py.field_get (entry_name disc_data) "" in
      let score := Py.field_get (entry_score disc_data) (Py.Float 0.0) in
      let evidence := Py.field_get (entry_evidence disc_data) "" in
      match get_discipline_by_id disc_id with
      | Some disc_def =>
          DisciplineResult.mk disc_id (DisciplineDefinition.name disc_def)
            (clamp score) evidence
          :: parse_disciplines rest
      | None => parse_disciplines rest
      end
  end.

(** [_parse_classification_result], where it returns. *)
Definition _parse_classification_result (file : output_file) : DisciplineClassification.t :=
  match file with
  | FileAbsent => _fallback_classification
  | FileNotJson => _fallback_classification
  | FileJson data =>
      let disciplines := parse_disciplines (Py.field_get (data_disciplines data) []) in
      let disciplines :=
        match disciplines with
        | [] => [ DisciplineResult.mk 1 "Computer Science" (Py.Float 0.5)
                    "Default classification" ]
        | _ => disciplines
        end in
      let disciplines :=
        Py.slice_to (Py.sorted_reverse DisciplineResult.relevance_score disciplines) 3 in
      DisciplineClassification.mk disciplines
        (clamp (Py.field_get (data_confidence data) (Py.Float 0.7)))
        (Py.field_get (data_reasoning data) "")
        ""
  end.

(** The loop of [_validate_disciplines]. *)
Fixpoint validate_loop (disciplines : list DisciplineResult.t) : list DisciplineResult.t :=
  match disciplines with
  | [] => []
  | disc :: rest =>
      match get_discipline_by_id (DisciplineResult.discipline_id disc) with
      | Some disc_def =>
          DisciplineResult.mk (DisciplineResult.discipline_id disc)
            (DisciplineDefinition.name disc_def)
            (DisciplineResult.relevance_score disc)
            (DisciplineResult.evidence disc)
          :: validate_loop rest
      | None => validate_loop rest
      end
  end.

(** [_validate_disciplines]. *)
Definition _validate_disciplines (classification : DisciplineClassification.t)
    : DisciplineClassification.t :=
  let validated_disciplines :=
    validate_loop (DisciplineClassification.disciplines classification) in
  let validated_disciplines :=
    match validated_disciplines with
    | [] => [ DisciplineResult.mk 1 "Computer Science" (Py.Float 0.5)
                "Fallback classification" ]
    | _ => validated_disciplines
    end in
  DisciplineClassification.mk validated_disciplines
    (DisciplineClassification.confidence_score classification)
    (DisciplineClassification.classification_reasoning classification)
    (DisciplineClassification.discipline_classification_id classification).

(** The classification [classify_paper] returns: the parsed artifact,
    validated, carrying the id [classification_id] it was assigned (by the
    analysis store, or a fresh UUID). *)
Definition classify_paper (file : output_file) (classification_id : string)
    : DisciplineClassification.t :=
  let classification := _parse_classification_result file in
  let classification := _validate_disciplines classification in
  DisciplineClassification.mk
    (DisciplineClassification.disciplines classification)
    (DisciplineClassification.confidence_score classification)
    (DisciplineClassification.classification_reasoning classification)
    classification_id.

(** Python values at run time, as far as the storage payload needs them:
    numbers, strings, lists, string-keyed dicts and [DisciplineResult]
    instances. *)
#[warnings="-register-all"]
Inductive pyvalue : Type :=
| VNum (n : Py.number)
| VStr (s : string)
| VList (l : list pyvalue)
| VDict (d : list (string * pyvalue))
| VDisciplineResult (r : DisciplineResult.t).

(** [_classification_to_dict]. *)
Definition _classification_to_dict (classification : DisciplineClassification.t) : pyvalue :=
  VDict
    [ ("disciplines",
       VList
         (map (fun d =>
                 VDict
                   [ ("discipline_id", VNum (Py.Int (DisciplineResult.discipline_id d)));
                     ("name", VStr (DisciplineResult.name d));
                     ("relevance_score", VNum (DisciplineResult.relevance_score d));
                     ("evidence", VStr (DisciplineResult.evidence d)) ])
              (DisciplineClassification.disciplines classification)));
      ("confidence_score",
       VNum (DisciplineClassification.confidence_score classification));
      ("classification_reasoning",
       VStr (DisciplineClassification.classification_reasoning classification));
      ("discipline_classification_id",
       VStr (DisciplineClassification.discipline_classification_id classification)) ].

(* ------------------------------------------------------------------ *)
(** * discipline_classifier_cca.py *)

(** A [DisciplineClassification] instance as the interpreter holds it.  The
    class is a plain [dataclass]: its constructor stores the arguments it is
    given, without checking or converting them against the annotations. *)
Module ClassificationInstance.
Record t : Type := mk {
  disciplines : pyvalue;
  confidence_score : pyvalue;
  classification_reasoning : pyvalue;
  discipline_classification_id : pyvalue
}.

(** The instance that a well-typed classification is. *)
Definition of_classification (c : DisciplineClassification.t) : t :=
  mk (VList (map VDisciplineResult (DisciplineClassification.disciplines c)))
     (VNum (DisciplineClassification.confidence_score c))
     (VStr (DisciplineClassification.classification_reasoning c))
     (VStr (DisciplineClassification.discipline_classification_id c)).
End ClassificationInstance.

Definition classification_fields : list string :=
  [ "disciplines"; "confidence_score"; "classification_reasoning";
    "discipline_classification_id" ].

(** The constructor call that ends [_load_classifier_output], with the
    entries of [data] as keyword arguments: [None] stands for the
    [TypeError] raised when [data] is no mapping, lacks a field or has an
    unexpected key. *)
Definition DisciplineClassification_init (data : pyvalue)
    : option ClassificationInstance.t :=
  match data with
  | VDict d =>
      if forallb (fun kv => existsb (String.eqb (fst kv)) classification_fields) d
      then
        match Py.get d "disciplines", Py.get d "confidence_score",
              Py.get d "classification_reasoning",
              Py.get d "discipline_classification_id" with
        | Some disciplines, Some confidence_score,
          Some classification_reasoning, Some discipline_classification_id =>
            Some (ClassificationInstance.mk disciplines confidence_score
                    classification_reasoning discipline_classification_id)
        | _, _, _, _ => None
        end
      else None
  | _ => None
  end.

(* ------------------------------------------------------------------ *)
(** * paper_parser_service.py *)

(** [type_mappings] of [_infer_section_type], in the order of the dict
    literal. *)
Definition type_mappings : Py.dict string (list string) :=
  [ ("introduction", [ "introduction"; "intro"; "background" ]);
    ("methods", [ "method"; "methodology"; "approach"; "materials and methods" ]);
    ("results", [ "result"; "finding"; "experiment" ]);
    ("discussion", [ "discussion"; "analysis" ]);
    ("conclusion", [ "conclusion"; "summary"; "concluding" ]);
    ("abstract", [ "abstract" ]);
    ("references", [ "reference"; "bibliography"; "citation" ]);
    ("appendix", [ "appendix"; "supplementary" ]) ].

(** The inner loop: does one of [keywords] occur in [name_lower]? *)
Fixpoint keyword_loop (keywords : list string) (name_lower : string) : bool :=
  match keywords with
  | [] => false
  | keyword :: rest =>
      if Py.str_in keyword name_lower then true else keyword_loop rest name_lower
  end.

(** The outer loop: the type of the first entry one of whose keywords
    occurs in [name_lower]. *)
Fixpoint type_loop (mappings : Py.dict string (list string)) (name_lower : string)
    : option string :=
  match mappings with
  | [] => None
  | (section_type, keywords) :: rest =>
      if keyword_loop keywords name_lower then Some section_type
      else type_loop rest name_lower
  end.

(** A Python string is represented by its UTF-8 bytes, ASCII text by
    itself: equality, concatenation, [startswith], [in], [split] and [join]
    with ASCII arguments are the same on the bytes as on the characters.
    The methods [lower] and [strip] follow the Unicode tables (the Kelvin
    sign is lower-cased to the letter k, the no-break space is stripped);
    they are parameters of the functions that call them, and what is
    proved holds whatever they are. *)
Section InferSectionType.

(** The method [str.lower]. *)
Variable lower : string -> string.

(** [_infer_section_type]. *)
Definition _infer_section_type (section_name default_type : string) : string :=
  let name_lower := lower section_name in
  match type_loop type_mappings name_lower with
  | Some section_type => section_type
  | None => Py.str_or default_type "content"
  end.

End InferSectionType.

(* ------------------------------------------------------------------ *)
(** * Further builtins on sequences *)

Module PySeq.

(** The loop of the builtin [max(l, key=key)]: the item kept so far is
    replaced when the key of the next item is strictly greater, so that the
    first of several maximal items is returned. *)
Fixpoint max_loop {A} (key : A -> Py.number) (maxitem : A) (l : list A) : A :=
  match l with
  | [] => maxitem
  | item :: l' =>
      max_loop key (if Py.lt (key maxitem) (key item) then item else maxitem) l'
  end.

(** [max(l, key=key)]; [None] stands for the [ValueError] raised on an
    empty sequence. *)
Definition max_key {A} (key : A -> Py.number) (l : list A) : option A :=
  match l with
  | [] => None
  | item :: l' => Some (max_loop key item l')
  end.

(** [l.index(x)]: the position of the first element equal to [x]; [None]
    stands for the [ValueError] raised when there is none. *)
Fixpoint index {K} `{Py.Key K} (x : K) (l : list K) : option nat :=
  match l with
  | [] => None
  | y :: l' =>
      if Py.key_eqb y x then Some O
      else match index x l' with
           | Some i => Some (S i)
           | None => None
           end
  end.

(** The slice [l[start:stop]] for indices within the list. *)
Definition slice {A} (l : list A) (start stop : nat) : list A :=
  firstn (stop - start) (skipn start l).

(** [sorted(l, key=key)] for integer keys: the builtin sort is stable; on
    integers this insertion sort returns the same list. *)
Fixpoint insert_sorted {A} (key : A -> Z) (x : A) (l : list A) : list A :=
  match l with
  | [] => [x]
  | y :: l' =>
      if key y <? key x then y :: insert_sorted key x l' else x :: l
  end.

Definition sorted {A} (key : A -> Z) (l : list A) : list A :=
  fold_right (insert_sorted key) [] l.

End PySeq.

(* ------------------------------------------------------------------ *)
(** * String methods *)

Module PyStr.

Definition LF : ascii := "010"%char.

(** [s.split(sep)] for a one-character separator: never an empty list. *)
Fixpoint split (s : string) (sep : ascii) : list string :=
  match s with
  | EmptyString => [ "" ]
  | String c s' =>
      if Ascii.eqb c sep then "" :: split s' sep
      else match split s' sep with
           | [] => [ String c "" ]
           | piece :: pieces => String c piece :: pieces
           end
  end.

(** The ASCII blanks: tab, line feed, vertical tab, form feed, carriage
    return, the four separators 28..31 and the space. *)
Definition ascii_isspace (c : ascii) : bool :=
  let n := nat_of_ascii c in
  (((9 <=? n) && (n <=? 13)) || ((28 <=? n) && (n <=? 32)))%nat.

Fixpoint ascii_lstrip (s : string) : string :=
  match s with
  | EmptyString => EmptyString
  | String c s' => if ascii_isspace c then ascii_lstrip s' else s
  end.

Fixpoint ascii_rstrip (s : string) : string :=
  match s with
  | EmptyString => EmptyString
  | String c s' =>
      match ascii_rstrip s' with
      | EmptyString => if ascii_isspace c then EmptyString else String c EmptyString
      | String c' r => String c (String c' r)
      end
  end.

(** What [s.strip()] is on ASCII text, where it removes the ASCII blanks at
    both ends; with [Py.lower] it instantiates the two parameters in the
    examples, whose strings are ASCII. *)
Definition ascii_strip (s : string) : string := ascii_rstrip (ascii_lstrip s).

(** [s.startswith(prefix)]. *)
Definition startswith (s prefix : string) : bool := String.prefix prefix s.

(** The slice [s[n:]], taken after an ASCII prefix of [n] characters. *)
Fixpoint drop (n : nat) (s : string) : string :=
  match n, s with
  | O, _ => s
  | S n', EmptyString => EmptyString
  | S n', String _ s' => drop n' s'
  end.

(** [sep.join(l)]. *)
Definition join (sep : string) (l : list string) : string := String.concat sep l.

(** [not s]: the string is empty. *)
Definition is_empty (s : string) : bool :=
  match s with
  | EmptyString => true
  | String _ _ => false
  end.

End PyStr.

(** What a call of the code ends in: a returned value or a raised
    exception (its message is not modelled). *)
Inductive exception : Type :=
| ValueError
| UnicodeDecodeError
| RecursionError.

Inductive outcome (A : Type) : Type :=
| Returns (value : A)
| Raises (e : exception).

Arguments Returns {A} value.
Arguments Raises {A} e.




(** [DisciplineClassification.get_primary_discipline] of review_models.py:
    [None] when there is no discipline, else the entry of highest score. *)
Definition get_primary_discipline (self : DisciplineClassification.t)
    : option DisciplineResult.t :=
  match DisciplineClassification.disciplines self with
  | [] => None
  | _ :: _ =>
      PySeq.max_key DisciplineResult.relevance_score
        (DisciplineClassification.disciplines self)
  end.

(* ------------------------------------------------------------------ *)
(** * review_models.py: the paper *)

Module PaperSection.
Record t : Type := mk {
  section_id : string;
  section_name : string;
  section_type : string;
  content : string;
  section_order : Z
}.
End PaperSection.

Module PaperContent.
Record t : Type := mk {
  title : string;
  abstract : string;
  keywords : list string;
  sections : list PaperSection.t;
  methodology_terms : list string;
  domain_terms : list string;
  potential_disciplines : list string;
  structured_content_overview_id : string;
  original_file_id : option string
}.

(** [get_full_text]. *)
Definition get_full_text (self : t) : string :=
  let parts :=
    [ ("# " ++ title self)%string;
      "";
      "## Abstract";
      abstract self;
      "";
      match keywords self with
      | [] => ""
      | _ :: _ => ("**Keywords**: " ++ PyStr.join ", " (keywords self))%string
      end;
      "" ] in
  let parts :=
    parts ++
    flat_map (fun section =>
                [ ("## " ++ PaperSection.section_name section)%string;
                  PaperSection.content section;
                  "" ])
             (PySeq.sorted PaperSection.section_order (sections self)) in
  PyStr.join (String PyStr.LF "") parts.
End PaperContent.

(* ------------------------------------------------------------------ *)
(** * paper_parser_service.py: sections and text *)

(** [_build_paper_markdown]. *)
Definition _build_paper_markdown (sections : list PaperSection.t) : string :=
  let lines :=
    flat_map (fun section =>
                [ ("## " ++ PaperSection.section_name section)%string;
                  "";
                  PaperSection.content section;
                  "" ])
             (PySeq.sorted PaperSection.section_order sections) in
  PyStr.join (String PyStr.LF "") lines.

(** The content payload of a section detail: a bare string or a mapping. *)
Inductive content_data : Type :=
| ContentStr (text : string)
| ContentDict (d : Py.dict string pyvalue).

(** The keys tried by [_extract_content_text], in priority order. *)
Definition content_keys : list string :=
  [ "markdown"; "text"; "value"; "raw_content"; "paragraph" ].

Section ExtractContentText.

(** The builtin [str] on the values of a content mapping.  It is the
    identity on strings; its rendering of the other values is left open. *)
Variable str : pyvalue -> string.

(** The first loop of [_extract_content_text]: the value under the first
    of [keys] that the mapping has. *)
Fixpoint content_key_loop (keys : list string) (d : Py.dict string pyvalue)
    : option string :=
  match keys with
  | [] => None
  | key :: rest =>
      match Py.get d key with
      | Some value => Some (str value)
      | None => content_key_loop rest d
      end
  end.

(** The second loop: one part for every key that does not start with an
    underscore. *)
Fixpoint content_parts_loop (items : Py.dict string pyvalue) : list string :=
  match items with
  | [] => []
  | (key, value) :: rest =>
      if negb (PyStr.startswith key "_")
      then ("**" ++ key ++ "**: " ++ str value)%string :: content_parts_loop rest
      else content_parts_loop rest
  end.

(** [_extract_content_text]. *)
Definition _extract_content_text (data : content_data) : string :=
  match data with
  | ContentStr text => text
  | ContentDict d =>
      match content_key_loop content_keys d with
      | Some text => text
      | None => PyStr.join (String PyStr.LF "") (content_parts_loop d)
      end
  end.

End ExtractContentText.

(** One element of the section list of the document store.  Each key may
    be missing, and a key that is present holds a string, or an integer for
    the two order keys. *)
Record section_listing : Type := {
  listing_id : option string;
  listing_section_id : option string;
  listing_name : option string;
  listing_section_name : option string;
  listing_type : option string;
  listing_section_type : option string;
  listing_order : option Z;
  listing_section_order : option Z
}.

(** The answer of [get_content_section_detail] for one section: a failure,
    or a success whose output is [None] when it is empty or has no
    [content] key. *)
Inductive detail_result : Type :=
| DetailFailed
| DetailSuccess (content : option content_data).

(** The answer of [get_content_section_list]: a failure, or the elements of
    [sections], each one with the answer its detail call receives. *)
Inductive list_result : Type :=
| ListFailed
| ListSuccess (sections_data : list (section_listing * detail_result)).

(** [a or b] where [a] is the optional string found under a first key and
    [b] the value found under a second key or its default. *)
Definition or_str (a : option string) (b : string) : string :=
  match a with
  | Some (String c s) => String c s
  | _ => b
  end.

(** The same on integers: 0 counts as missing. *)
Definition or_int (a : option Z) (b : Z) : Z :=
  match a with
  | Some 0 | None => b
  | Some z => z
  end.

Section ParseFromStructuredContent.

Variable str : pyvalue -> string.
Variable lower : string -> string.

(** The loop of [_parse_from_structured_content] over the enumerated
    sections, [idx] being the index of the first one. *)
Fixpoint sections_loop (idx : Z) (sections_data : list (section_listing * detail_result))
    : list PaperSection.t :=
  match sections_data with
  | [] => []
  | (section, detail) :: rest =>
      let section_id :=
        or_str (listing_id section) (Py.field_get (listing_section_id section) "") in
      let section_name :=
        or_str (listing_name section) (Py.field_get (listing_section_name section) "") in
      let section_type :=
        or_str (listing_type section)
               (Py.field_get (listing_section_type section) "content") in
      let section_order :=
        or_int (listing_order section)
               (Py.field_get (listing_section_order section) (idx + 1)) in
      match detail with
      | DetailFailed => sections_loop (idx + 1) rest
      | DetailSuccess content =>
          let content_data := Py.field_get content (ContentDict []) in
          let content := _extract_content_text str content_data in
          PaperSection.mk section_id section_name
            (_infer_section_type lower section_name section_type)
            content section_order
          :: sections_loop (idx + 1) rest
      end
  end.

(** [_parse_from_structured_content]. *)
Definition _parse_from_structured_content (listed : list_result)
    : outcome (list PaperSection.t) :=
  match listed with
  | ListFailed => Raises ValueError
  | ListSuccess [] => Raises ValueError
  | ListSuccess sections_data =>
      Returns (PySeq.sorted PaperSection.section_order (sections_loop 0 sections_data))
  end.

End ParseFromStructuredContent.

(* ------------------------------------------------------------------ *)
(** * paper_parser_service.py: feature extraction *)

(** The dictionary of extracted features: the object written by the
    extraction oracle, each key of which may be missing, or the one built
    by [_basic_extraction], which has them all. *)
Record features : Type := {
  features_title : option string;
  features_abstract : option string;
  features_keywords : option (list string);
  features_methodology_terms : option (list string);
  features_domain_terms : option (list string);
  features_potential_disciplines : option (list string)
}.

Section FeatureExtraction.

(** The methods [str.strip] and [str.lower]. *)
Variables strip lower : string -> string.

(** The inner loop of [_basic_extraction]: the lines up to the first one
    that starts with a heading marker. *)
Fixpoint abstract_lines_loop (candidates : list string) : list string :=
  match candidates with
  | [] => []
  | line :: rest =>
      if PyStr.startswith line "#" then []
      else line :: abstract_lines_loop rest
  end.

(** The outer loop of [_basic_extraction] over the remaining lines [rest]
    of [lines]; it returns the title and the abstract. *)
Fixpoint basic_extraction_loop (lines rest : list string) (title abstract : string)
    : outcome (string * string) :=
  match rest with
  | [] => Returns (title, abstract)
  | line :: rest' =>
      let line := strip line in
      if PyStr.startswith line "# " && PyStr.is_empty title then
        basic_extraction_loop lines rest' (strip (PyStr.drop 2 line)) abstract
      else if Py.str_in "abstract" (lower line) && PyStr.is_empty abstract then
        match PySeq.index line lines with
        | None => Raises ValueError
        | Some idx =>
            if (idx + 1 <? List.length lines)%nat then
              let abstract_lines :=
                abstract_lines_loop
                  (PySeq.slice lines (idx + 1)
                     (Nat.min (idx + 20) (List.length lines))) in
              Returns (title, strip (PyStr.join (String PyStr.LF "") abstract_lines))
            else Returns (title, abstract)
        end
      else basic_extraction_loop lines rest' title abstract
  end.

(** [_basic_extraction]. *)
Definition _basic_extraction (paper_markdown : string) : outcome features :=
  let lines := PyStr.split paper_markdown PyStr.LF in
  match basic_extraction_loop lines lines "" "" with
  | Raises e => Raises e
  | Returns (title, abstract) =>
      Returns {| features_title := Some (Py.str_or title "Untitled Paper");
                 features_abstract := Some abstract;
                 features_keywords := Some [];
                 features_methodology_terms := Some [];
                 features_domain_terms := Some [];
                 features_potential_disciplines := Some [] |}
  end.



End FeatureExtraction.


(* ------------------------------------------------------------------ *)
(** * discipline_classifier_cca.py: debug phases *)

Section DebugPhases.

Variables strip lower : string -> string.

(** [_parse_debug_phases]; the set is kept as the list of its elements. *)
Definition _parse_debug_phases (debug_phases_str : option string) : list string :=
  match debug_phases_str with
  | None => []
  | Some EmptyString => []
  | Some s => map (fun p => lower (strip p)) (PyStr.split s ","%char)
  end.

End DebugPhases.

(** The test of [execute] that skips the phase named [phase] and loads its
    output from the workspace. *)
Definition skips_phase (debug_phases : list string) (phase : string) : bool :=
  negb (match debug_phases with [] => true | _ :: _ => false end) &&
  negb (existsb (String.eqb phase) debug_phases).

(* ------------------------------------------------------------------ *)
(** * Notions used by the statements *)

(** [x] is a [float] of the closed interval from 0 to 1. *)
Definition unit_interval (x : Py.number) : Prop :=
  exists q : Q, x = Py.Float q /\ (0 <= q <= 1)%Q.

(** [a] is at least [b], both being finite. *)
Definition number_ge (a b : Py.number) : Prop :=
  match Py.finite a, Py.finite b with
  | Some p, Some q => (q <= p)%Q
  | _, _ => False
  end.

(** The key of [y] is not above the key of [x]: the comparison the sort
    makes never puts [y] before [x]. *)
Definition not_above {A} (key : A -> Py.number) (x y : A) : Prop :=
  Py.lt (key x) (key y) = false.

(** The score of [a] is at least the score of [b]. *)
Definition score_ge (a b : DisciplineResult.t) : Prop :=
  number_ge (DisciplineResult.relevance_score a) (DisciplineResult.relevance_score b).

(** The entries of [l] whose score equals [v], in the order of [l]. *)
Definition with_score (v : Py.number) (l : list DisciplineResult.t) : list DisciplineResult.t :=
  filter (fun d => Py.eqb (DisciplineResult.relevance_score d) v) l.

(** The id of [r] resolves and [r] carries the canonical name. *)
Definition canonical (r : DisciplineResult.t) : Prop :=
  exists d,
    get_discipline_by_id (DisciplineResult.discipline_id r) = Some d /\
    DisciplineResult.name r = DisciplineDefinition.name d.

(** The id of an oracle entry resolves against the taxonomy. *)
Definition resolvable (e : oracle_entry) : bool :=
  match get_discipline_by_id (Py.field_get (entry_id e) 0) with
  | Some _ => true
  | None => false
  end.

(** What the parser keeps of an oracle entry: its id, its clamped score and
    its evidence. *)
Definition kept_of_entry (e : oracle_entry) : Z * Py.number * string :=
  (Py.field_get (entry_id e) 0,
   clamp (Py.field_get (entry_score e) (Py.Float 0.0)),
   Py.field_get (entry_evidence e) "").

(** The same three fields of a result. *)
Definition kept_of_result (r : DisciplineResult.t) : Z * Py.number * string :=
  (DisciplineResult.discipline_id r,
   DisciplineResult.relevance_score r,
   DisciplineResult.evidence r).

(** Two oracle entries that agree on everything but the name. *)
Definition same_but_name (e e' : oracle_entry) : Prop :=
  entry_id e = entry_id e' /\
  entry_score e = entry_score e' /\
  entry_evidence e = entry_evidence e'.

(** The single entry substituted by [_parse_classification_result] when no
    oracle entry survives. *)
Definition default_discipline : DisciplineResult.t :=
  DisciplineResult.mk 1 "Computer Science" (Py.Float 0.5) "Default classification".

(** The value of [disciplines] in [_parse_classification_result] just
    before the sort. *)
Definition survivors (data : oracle_data) : list DisciplineResult.t :=
  match parse_disciplines (Py.field_get (data_disciplines data) []) with
  | [] => [ default_discipline ]
  | d :: l => d :: l
  end.

(** [sub] occurs in [s]: [s] is [sub] with text before and after it. *)
Definition occurs_in (sub s : string) : Prop :=
  exists before after : string, s = (before ++ sub ++ after)%string.

(** One of the keywords of a [type_mappings] entry occurs in the lowered
    section name. *)
Definition category_matches (lower : string -> string) (section_name : string)
    (entry : string * list string) : Prop :=
  exists keyword, In keyword (snd entry) /\ occurs_in keyword (lower section_name).

(** The id of a result resolves against the taxonomy. *)
Definition result_resolvable (r : DisciplineResult.t) : bool :=
  match get_discipline_by_id (DisciplineResult.discipline_id r) with
  | Some _ => true
  | None => false
  end.

(** The detail call of a listed section succeeded. *)
Definition detail_succeeded (entry : section_listing * detail_result) : bool :=
  match snd entry with
  | DetailSuccess _ => true
  | DetailFailed => false
  end.

(** The items of a content mapping whose key does not start with an
    underscore. *)
Definition public_items (d : Py.dict string pyvalue) : Py.dict string pyvalue :=
  filter (fun item => negb (PyStr.startswith (fst item) "_")) d.

(** A line that [_basic_extraction] passes over while it has no title: it
    is no first-level heading and does not mention the abstract. *)
Definition plain_line (strip lower : string -> string) (line : string) : Prop :=
  PyStr.startswith (strip line) "# " = false /\
  Py.str_in "abstract" (lower (strip line)) = false.


(* ------------------------------------------------------------------ *)
(** * Facts about the Python primitives *)

Section NumberFacts.

Lemma Qltb_lt (p q : Q) : Py.Qltb p q = true <-> (p < q)%Q.
Proof.
  unfold Py.Qltb. rewrite negb_true_iff. split; intro H.
  - destruct (Qlt_le_dec p q) as [Hlt | Hle]; [ exact Hlt | ].
    apply Qle_bool_iff in Hle. congruence.
  - destruct (Qle_bool q p) eqn:E; [ | reflexivity ].
    apply Qle_bool_iff in E. lra.
Qed.

Lemma Qltb_ge (p q : Q) : Py.Qltb p q = false <-> (q <= p)%Q.
Proof.
  unfold Py.Qltb. rewrite negb_false_iff. apply Qle_bool_iff.
Qed.

Lemma lt_asym (a b : Py.number) : Py.lt a b = true -> Py.lt b a = false.
Proof.
  destruct a, b; simpl; try congruence;
    rewrite Qltb_lt, Qltb_ge; intros; lra.
Qed.

(** On numbers other than [NaN], "not less than" is transitive. *)
Lemma lt_false_trans (a b c : Py.number) :
  b <> Py.NaN ->
  Py.lt a b = false -> Py.lt b c = false -> Py.lt a c = false.
Proof.
  destruct a, b, c; simpl; try congruence;
    rewrite ?Qltb_ge; intros; lra.
Qed.

Lemma eqb_lt (a b v : Py.number) :
  Py.eqb a v = true -> Py.eqb b v = true -> Py.lt a b = false.
Proof.
  destruct a, b, v; simpl; try congruence;
    rewrite ?Qeq_bool_iff, ?Qltb_ge; intros Ha Hb; rewrite Ha, Hb; lra.
Qed.

Lemma unit_interval_not_NaN (x : Py.number) : unit_interval x -> x <> Py.NaN.
Proof. intros [q [-> _]]. discriminate. Qed.

Lemma lt_false_ge (a b : Py.number) :
  unit_interval a -> unit_interval b -> Py.lt a b = false -> number_ge a b.
Proof.
  intros [p [-> _]] [q [-> _]]. unfold number_ge. simpl.
  now rewrite Qltb_ge.
Qed.

End NumberFacts.

Section ClampFacts.

Ltac Qcompare_all :=
  repeat match goal with
    | H : Py.Qltb _ _ = true |- _ => apply Qltb_lt in H
    | H : Py.Qltb _ _ = false |- _ => apply Qltb_ge in H
    end.

(** Clamping always yields a float between 0 and 1, also on [NaN] and on
    the infinities. *)
Lemma clamp_unit_interval (x : Py.number) : unit_interval (clamp x).
Proof.
  unfold clamp, Py.max, Py.min, unit_interval.
  destruct x as [z | q | | | ]; simpl.
  - destruct (Py.Qltb 0.0 (inject_Z z)) eqn:E0; simpl.
    + destruct (Py.Qltb (inject_Z z) 1.0) eqn:E1.
      * Qcompare_all. exfalso. revert E0 E1. unfold Qlt; simpl. lia.
      * exists 1.0%Q. split; [ reflexivity | lra ].
    + exists 0.0%Q. split; [ reflexivity | lra ].
  - destruct (Py.Qltb 0.0 q) eqn:E0; simpl.
    + destruct (Py.Qltb q 1.0) eqn:E1.
      * Qcompare_all. exists q. split; [ reflexivity | lra ].
      * exists 1.0%Q. split; [ reflexivity | lra ].
    + exists 0.0%Q. split; [ reflexivity | lra ].
  - exists 1.0%Q. split; [ reflexivity | lra ].
  - exists 0.0%Q. split; [ reflexivity | lra ].
  - exists 0.0%Q. split; [ reflexivity | lra ].
Qed.

(** On a finite number of value [v], clamping yields 0 below 0, 1 above 1
    and [v] itself in between. *)
Lemma clamp_finite (x : Py.number) (v : Q) :
  Py.finite x = Some v ->
  exists q : Q,
    clamp x = Py.Float q /\
    ((v <= 0)%Q -> (q == 0)%Q) /\
    ((1 <= v)%Q -> (q == 1)%Q) /\
    ((0 <= v <= 1)%Q -> (q == v)%Q).
Proof.
  unfold clamp, Py.max, Py.min.
  destruct x as [z | q | | | ]; simpl; try discriminate;
    intros [= <-].
  - destruct (Py.Qltb 0.0 (inject_Z z)) eqn:E0; simpl.
    + destruct (Py.Qltb (inject_Z z) 1.0) eqn:E1.
      * Qcompare_all. exfalso. revert E0 E1. unfold Qlt; simpl. lia.
      * Qcompare_all. exists 1.0%Q. repeat split; intros; lra.
    + Qcompare_all. exists 0.0%Q. repeat split; intros; lra.
  - destruct (Py.Qltb 0.0 q) eqn:E0; simpl.
    + destruct (Py.Qltb q 1.0) eqn:E1.
      * Qcompare_all. exists q. repeat split; intros; lra.
      * Qcompare_all. exists 1.0%Q. repeat split; intros; lra.
    + Qcompare_all. exists 0.0%Q. repeat split; intros; lra.
Qed.

(** A float strictly between 0 and 1 is returned as it is. *)
Lemma clamp_inside (q : Q) :
  (0 < q < 1)%Q -> clamp (Py.Float q) = Py.Float q.
Proof.
  intros [H0 H1]. unfold clamp, Py.max, Py.min. simpl.
  assert (E0 : Py.Qltb 0.0 q = true) by (apply Qltb_lt; lra).
  assert (E1 : Py.Qltb q 1.0 = true) by (apply Qltb_lt; lra).
  rewrite E0. simpl. now rewrite E1.
Qed.

End ClampFacts.

Section SortFacts.

Context {A : Type} (key : A -> Py.number).

Lemma insert_reverse_perm (x : A) (l : list A) :
  Permutation (Py.insert_reverse key x l) (x :: l).
Proof.
  induction l as [ | y l IH ]; simpl.
  - apply Permutation_refl.
  - destruct (Py.lt (key x) (key y)).
    + apply Permutation_trans with (y :: x :: l).
      * now apply perm_skip.
      * apply perm_swap.
    + apply Permutation_refl.
Qed.

Lemma sorted_reverse_perm (l : list A) :
  Permutation (Py.sorted_reverse key l) l.
Proof.
  induction l as [ | x l IH ]; simpl.
  - apply perm_nil.
  - apply Permutation_trans with (x :: Py.sorted_reverse key l).
    + apply insert_reverse_perm.
    + now apply perm_skip.
Qed.

Lemma insert_reverse_sorted (x : A) (l : list A) :
  Forall (fun y => key y <> Py.NaN) l ->
  StronglySorted (not_above key) l ->
  StronglySorted (not_above key) (Py.insert_reverse key x l).
Proof.
  induction l as [ | y l IH ]; simpl; intros Hnan Hs.
  - constructor; constructor.
  - apply StronglySorted_inv in Hs as [Hs Hy].
    apply Forall_cons_iff in Hnan as [Hynan Hnan].
    destruct (Py.lt (key x) (key y)) eqn:E.
    + constructor.
      * now apply IH.
      * apply Permutation_Forall with (x :: l).
        -- apply Permutation_sym, insert_reverse_perm.
        -- constructor; [ | exact Hy ]. now apply lt_asym.
    + constructor.
      * now constructor.
      * constructor; [ exact E | ].
        revert Hy. apply Forall_impl. intros z Hz.
        now apply lt_false_trans with (key y).
Qed.

Lemma sorted_reverse_sorted (l : list A) :
  Forall (fun y => key y <> Py.NaN) l ->
  StronglySorted (not_above key) (Py.sorted_reverse key l).
Proof.
  induction l as [ | x l IH ]; simpl; intros Hnan.
  - constructor.
  - apply Forall_cons_iff in Hnan as [_ Hnan].
    apply insert_reverse_sorted.
    + apply Permutation_Forall with l; [ | exact Hnan ].
      apply Permutation_sym, sorted_reverse_perm.
    + now apply IH.
Qed.

(** Stability: among the elements whose key equals [v], the order of the
    input is kept. *)
Lemma insert_reverse_stable (v : Py.number) (x : A) (l : list A) :
  filter (fun d => Py.eqb (key d) v) (Py.insert_reverse key x l) =
  filter (fun d => Py.eqb (key d) v) (x :: l).
Proof.
  induction l as [ | y l IH ]; [ reflexivity | ].
  simpl. destruct (Py.lt (key x) (key y)) eqn:E; [ | reflexivity ].
  simpl. rewrite IH. simpl.
  destruct (Py.eqb (key x) v) eqn:Ex, (Py.eqb (key y) v) eqn:Ey;
    try reflexivity.
  rewrite (eqb_lt _ _ _ Ex Ey) in E. discriminate.
Qed.

Lemma sorted_reverse_stable (v : Py.number) (l : list A) :
  filter (fun d => Py.eqb (key d) v) (Py.sorted_reverse key l) =
  filter (fun d => Py.eqb (key d) v) l.
Proof.
  induction l as [ | x l IH ]; [ reflexivity | ].
  simpl Py.sorted_reverse. rewrite insert_reverse_stable.
  simpl. now rewrite IH.
Qed.

End SortFacts.

Section ListFacts.

Context {A : Type}.

Lemma In_firstn (n : nat) (l : list A) (y : A) :
  In y (firstn n l) -> In y l.
Proof.
  intro H. rewrite <- (firstn_skipn n l). apply in_or_app. now left.
Qed.

Lemma firstn_StronglySorted (R : A -> A -> Prop) (n : nat) (l : list A) :
  StronglySorted R l -> StronglySorted R (firstn n l).
Proof.
  revert l. induction n as [ | n IH ]; intros l Hs; simpl.
  - constructor.
  - destruct l as [ | x l ]; [ constructor | ].
    apply StronglySorted_inv in Hs as [Hs Hx].
    constructor; [ now apply IH | ].
    apply Forall_forall. intros y Hy.
    apply (proj1 (Forall_forall _ _) Hx).
    now apply In_firstn with n.
Qed.

End ListFacts.

(* ------------------------------------------------------------------ *)
(** * Facts about the taxonomy *)

Section TaxonomyFacts.

Ltac by_key z :=
  repeat match goal with
    | |- context [ Z.eqb ?k z ] => destruct (Z.eqb_spec k z) as [ <- | ? ]
    end.

(** An id resolves exactly when it lies in 1..23, and the definition found
    carries that id. *)
Lemma get_discipline_by_id_Some (z : Z) (d : DisciplineDefinition.t) :
  get_discipline_by_id z = Some d ->
  1 <= z <= 23 /\ DisciplineDefinition.id d = z.
Proof.
  unfold get_discipline_by_id, DISCIPLINES.
  cbn [Py.get Py.key_eqb Py.Key_Z].
  by_key z; intros [= <-]; cbn [DisciplineDefinition.id]; lia.
Qed.

Lemma get_discipline_by_id_in_range (z : Z) :
  1 <= z <= 23 -> exists d, get_discipline_by_id z = Some d.
Proof.
  intro H.
  assert (Hz : z = 1 \/ z = 2 \/ z = 3 \/ z = 4 \/ z = 5 \/ z = 6 \/ z = 7 \/
               z = 8 \/ z = 9 \/ z = 10 \/ z = 11 \/ z = 12 \/ z = 13 \/
               z = 14 \/ z = 15 \/ z = 16 \/ z = 17 \/ z = 18 \/ z = 19 \/
               z = 20 \/ z = 21 \/ z = 22 \/ z = 23) by lia.
  repeat destruct Hz as [ -> | Hz ]; try subst z; eexists; reflexivity.
Qed.

Lemma get_discipline_by_id_None (z : Z) :
  get_discipline_by_id z = None <-> z < 1 \/ 23 < z.
Proof.
  split.
  - intro H. destruct (Z_lt_dec z 1); [ now left | ].
    destruct (Z_lt_dec 23 z); [ now right | ].
    destruct (get_discipline_by_id_in_range z) as [d Hd]; [ lia | congruence ].
  - intro H. destruct (get_discipline_by_id z) as [d | ] eqn:E; [ | reflexivity ].
    apply get_discipline_by_id_Some in E. lia.
Qed.

End TaxonomyFacts.

(* ------------------------------------------------------------------ *)
(** * Facts about parsing and validation *)

Section ParseFacts.

Lemma parse_disciplines_canonical (entries : list oracle_entry) :
  Forall canonical (parse_disciplines entries).
Proof.
  induction entries as [ | e entries IH ]; simpl; [ constructor | ].
  destruct (get_discipline_by_id (Py.field_get (entry_id e) 0)) as [d | ] eqn:E;
    [ | exact IH ].
  constructor; [ | exact IH ].
  exists d. split; [ exact E | reflexivity ].
Qed.

Lemma parse_disciplines_unit_interval (entries : list oracle_entry) :
  Forall (fun r => unit_interval (DisciplineResult.relevance_score r))
         (parse_disciplines entries).
Proof.
  induction entries as [ | e entries IH ]; simpl; [ constructor | ].
  destruct (get_discipline_by_id (Py.field_get (entry_id e) 0));
    [ | exact IH ].
  constructor; [ apply clamp_unit_interval | exact IH ].
Qed.

(** Where each parsed entry comes from. *)
Lemma parse_disciplines_origin (entries : list oracle_entry) (r : DisciplineResult.t) :
  In r (parse_disciplines entries) ->
  exists e,
    In e entries /\ resolvable e = true /\
    DisciplineResult.discipline_id r = Py.field_get (entry_id e) 0 /\
    DisciplineResult.relevance_score r =
      clamp (Py.field_get (entry_score e) (Py.Float 0.0)) /\
    DisciplineResult.evidence r = Py.field_get (entry_evidence e) "".
Proof.
  induction entries as [ | e entries IH ]; simpl; [ contradiction | ].
  destruct (get_discipline_by_id (Py.field_get (entry_id e) 0)) as [d | ] eqn:E.
  - intros [ <- | Hin ].
    + exists e. unfold resolvable. rewrite E. simpl. auto.
    + destruct (IH Hin) as [e' [? ?]]. exists e'. auto.
  - intro Hin. destruct (IH Hin) as [e' [? ?]]. exists e'. auto.
Qed.

(** The parsed entries are the resolvable oracle entries, in the oracle's
    order. *)
Lemma parse_disciplines_filter (entries : list oracle_entry) :
  map kept_of_result (parse_disciplines entries) =
  map kept_of_entry (filter resolvable entries).
Proof.
  induction entries as [ | e entries IH ]; [ reflexivity | ].
  cbn [parse_disciplines filter]. unfold resolvable at 1.
  destruct (get_discipline_by_id (Py.field_get (entry_id e) 0)); [ | exact IH ].
  cbn [map]. now rewrite IH.
Qed.

Lemma parse_disciplines_app (l1 l2 : list oracle_entry) :
  parse_disciplines (l1 ++ l2) = parse_disciplines l1 ++ parse_disciplines l2.
Proof.
  induction l1 as [ | e l1 IH ]; simpl; [ reflexivity | ].
  destruct (get_discipline_by_id (Py.field_get (entry_id e) 0));
    simpl; now rewrite IH.
Qed.

Lemma default_discipline_canonical : canonical default_discipline.
Proof. eexists. split; reflexivity. Qed.

Lemma default_discipline_unit_interval :
  unit_interval (DisciplineResult.relevance_score default_discipline).
Proof. exists 0.5%Q. split; [ reflexivity | lra ]. Qed.

Lemma survivors_not_nil (data : oracle_data) : survivors data <> [].
Proof.
  unfold survivors.
  destruct (parse_disciplines _); discriminate.
Qed.

Lemma survivors_canonical (data : oracle_data) : Forall canonical (survivors data).
Proof.
  unfold survivors.
  pose proof (parse_disciplines_canonical (Py.field_get (data_disciplines data) [])) as H.
  destruct (parse_disciplines _).
  - constructor; [ apply default_discipline_canonical | constructor ].
  - exact H.
Qed.

Lemma survivors_unit_interval (data : oracle_data) :
  Forall (fun r => unit_interval (DisciplineResult.relevance_score r))
         (survivors data).
Proof.
  unfold survivors.
  pose proof (parse_disciplines_unit_interval
                (Py.field_get (data_disciplines data) [])) as H.
  destruct (parse_disciplines _).
  - constructor; [ apply default_discipline_unit_interval | constructor ].
  - exact H.
Qed.

Lemma survivors_origin (data : oracle_data) (r : DisciplineResult.t) :
  In r (survivors data) ->
  r = default_discipline \/
  exists e,
    In e (Py.field_get (data_disciplines data) []) /\ resolvable e = true /\
    DisciplineResult.relevance_score r =
      clamp (Py.field_get (entry_score e) (Py.Float 0.0)).
Proof.
  unfold survivors. intro H.
  destruct (parse_disciplines _) as [ | d l ] eqn:E.
  - left. destruct H as [ <- | [] ]. reflexivity.
  - right. rewrite <- E in H.
    apply parse_disciplines_origin in H as [e [Hin [Hres [_ [Hscore _]]]]].
    exists e. auto.
Qed.

(** The parser on a decoded object, with the sort and the slice laid
    bare. *)
Lemma parse_FileJson (data : oracle_data) :
  _parse_classification_result (FileJson data) =
  DisciplineClassification.mk
    (firstn 3 (Py.sorted_reverse DisciplineResult.relevance_score (survivors data)))
    (clamp (Py.field_get (data_confidence data) (Py.Float 0.7)))
    (Py.field_get (data_reasoning data) "")
    "".
Proof.
  unfold _parse_classification_result, survivors, default_discipline.
  destruct (parse_disciplines _); reflexivity.
Qed.

Lemma parse_In_survivors (data : oracle_data) (r : DisciplineResult.t) :
  In r (DisciplineClassification.disciplines
          (_parse_classification_result (FileJson data))) ->
  In r (survivors data).
Proof.
  rewrite parse_FileJson. cbn [DisciplineClassification.disciplines]. intro H.
  apply In_firstn in H.
  revert H. apply Permutation_in, sorted_reverse_perm.
Qed.

Lemma parse_canonical (file : output_file) :
  Forall canonical
    (DisciplineClassification.disciplines (_parse_classification_result file)).
Proof.
  destruct file as [ | | data ].
  - constructor; [ apply default_discipline_canonical | constructor ].
  - constructor; [ apply default_discipline_canonical | constructor ].
  - apply Forall_forall. intros r Hr.
    apply parse_In_survivors in Hr.
    revert r Hr. apply Forall_forall, survivors_canonical.
Qed.

Lemma parse_length (file : output_file) :
  (1 <= List.length
          (DisciplineClassification.disciplines (_parse_classification_result file))
     <= 3)%nat.
Proof.
  destruct file as [ | | data ]; try (simpl; lia).
  rewrite parse_FileJson. cbn [DisciplineClassification.disciplines].
  rewrite length_firstn.
  rewrite (Permutation_length (sorted_reverse_perm _ (survivors data))).
  pose proof (survivors_not_nil data) as H.
  destruct (survivors data); [ congruence | cbn [List.length]; lia ].
Qed.

(** Validation leaves a list of canonical entries as it is. *)
Lemma validate_loop_canonical (l : list DisciplineResult.t) :
  Forall canonical l -> validate_loop l = l.
Proof.
  induction 1 as [ | r l [d [Hd Hname]] _ IH ]; simpl; [ reflexivity | ].
  rewrite Hd, IH, <- Hname. now destruct r.
Qed.

Lemma validate_parse (file : output_file) :
  _validate_disciplines (_parse_classification_result file) =
  _parse_classification_result file.
Proof.
  unfold _validate_disciplines.
  rewrite (validate_loop_canonical _ (parse_canonical file)).
  pose proof (parse_length file) as H.
  destruct (_parse_classification_result file) as [ds cs cr ci].
  simpl in *. destruct ds; [ simpl in H; lia | reflexivity ].
Qed.

End ParseFacts.

Section OrderFacts.

Lemma not_above_score_ge (l : list DisciplineResult.t) :
  Forall (fun r => unit_interval (DisciplineResult.relevance_score r)) l ->
  StronglySorted (not_above DisciplineResult.relevance_score) l ->
  StronglySorted score_ge l.
Proof.
  intros Hu Hs. induction Hs as [ | r l Hs IH Hr ]; [ constructor | ].
  apply Forall_cons_iff in Hu as [Hur Hul].
  constructor; [ now apply IH | ].
  apply Forall_forall. intros r' Hr'.
  apply lt_false_ge.
  - exact Hur.
  - now apply (proj1 (Forall_forall _ _) Hul).
  - now apply (proj1 (Forall_forall _ _) Hr).
Qed.

Lemma sorted_survivors (data : oracle_data) :
  StronglySorted score_ge
    (Py.sorted_reverse DisciplineResult.relevance_score (survivors data)).
Proof.
  pose proof (survivors_unit_interval data) as Hu.
  apply not_above_score_ge.
  - apply Permutation_Forall with (survivors data); [ | exact Hu ].
    apply Permutation_sym, sorted_reverse_perm.
  - apply sorted_reverse_sorted.
    revert Hu. apply Forall_impl. intros r. apply unit_interval_not_NaN.
Qed.

Lemma parse_same_but_name (l l' : list oracle_entry) :
  Forall2 same_but_name l l' -> parse_disciplines l = parse_disciplines l'.
Proof.
  induction 1 as [ | e e' l l' [Hid [Hscore Hev]] _ IH ]; simpl; [ reflexivity | ].
  rewrite Hid, Hscore, Hev, IH. reflexivity.
Qed.

End OrderFacts.

(* ------------------------------------------------------------------ *)
(** * The classifier: properties of the specification *)

(** C1. Every classification returned by the classifier pipeline (the
    parser followed by the validation pass, then the assignment of the
    classification id) holds between 1 and 3 disciplines, whatever the
    oracle wrote, also when its artifact is missing or undecodable and when
    none of its entries resolves. *)
Theorem classify_paper_disciplines_length
    (file : output_file) (classification_id : string) :
  (1 <= List.length
          (DisciplineClassification.disciplines
             (_validate_disciplines (_parse_classification_result file)))
     <= 3)%nat /\
  (1 <= List.length
          (DisciplineClassification.disciplines
             (classify_paper file classification_id))
     <= 3)%nat.
Proof.
  unfold classify_paper. cbn [DisciplineClassification.disciplines].
  rewrite validate_parse.
  split; apply parse_length.
Qed.

(** C2. An oracle entry whose id does not resolve against the 23-entry
    taxonomy (an id outside 1..23) is dropped: the parser returns what it
    returns without that entry, whatever name the entry carries, and the
    entries it parses are the resolvable ones in the oracle's order, with
    their id, clamped score and evidence.  Every entry of the result
    carries the canonical name of its id, and the names written by the
    oracle play no part in the result.  Oracle ids [99, 2] yield the single
    entry of id 2 named "Medicine". *)
Theorem parse_drops_unresolvable_ids :
  (forall e : oracle_entry,
      resolvable e = false <->
      (Py.field_get (entry_id e) 0 < 1 \/ 23 < Py.field_get (entry_id e) 0)) /\
  (forall (l1 l2 : list oracle_entry) (e : oracle_entry) confidence reasoning,
      resolvable e = false ->
      _parse_classification_result
        (FileJson {| data_disciplines := Some (l1 ++ e :: l2);
                     data_confidence := confidence;
                     data_reasoning := reasoning |}) =
      _parse_classification_result
        (FileJson {| data_disciplines := Some (l1 ++ l2);
                     data_confidence := confidence;
                     data_reasoning := reasoning |})) /\
  (forall entries : list oracle_entry,
      map kept_of_result (parse_disciplines entries) =
      map kept_of_entry (filter resolvable entries)) /\
  (forall file : output_file,
      Forall canonical
        (DisciplineClassification.disciplines (_parse_classification_result file))) /\
  (forall (l l' : list oracle_entry) confidence reasoning,
      Forall2 same_but_name l l' ->
      _parse_classification_result
        (FileJson {| data_disciplines := Some l;
                     data_confidence := confidence;
                     data_reasoning := reasoning |}) =
      _parse_classification_result
        (FileJson {| data_disciplines := Some l';
                     data_confidence := confidence;
                     data_reasoning := reasoning |})) /\
  DisciplineClassification.disciplines
    (_parse_classification_result
       (FileJson
          {| data_disciplines :=
               Some [ {| entry_id := Some 99; entry_name := Some "Medicine";
                         entry_score := Some (Py.Float 0.8);
                         entry_evidence := Some "clinical trial" |};
                      {| entry_id := Some 2; entry_name := Some "Health";
                         entry_score := Some (Py.Float 0.5);
                         entry_evidence := Some "patients" |} ];
             data_confidence := Some (Py.Float 0.9);
             data_reasoning := Some "medical study" |})) =
  [ DisciplineResult.mk 2 "Medicine" (Py.Float 0.5) "patients" ].
Proof.
  split; [ | split; [ | split; [ | split; [ | split ] ] ] ].
  - intro e. unfold resolvable.
    rewrite <- get_discipline_by_id_None.
    destruct (get_discipline_by_id _); split; congruence.
  - intros l1 l2 e confidence reasoning He.
    rewrite !parse_FileJson. unfold survivors. cbn [data_disciplines Py.field_get].
    rewrite !parse_disciplines_app. simpl.
    unfold resolvable in He.
    destruct (get_discipline_by_id (Py.field_get (entry_id e) 0));
      [ discriminate | reflexivity ].
  - exact parse_disciplines_filter.
  - apply parse_canonical.
  - intros l l' confidence reasoning H.
    rewrite !parse_FileJson. unfold survivors. cbn [data_disciplines Py.field_get].
    now rewrite (parse_same_but_name l l' H).
  - reflexivity.
Qed.

(** The entry of id 99 does not resolve; with or without it the parser
    returns the same classification. *)
Lemma parse_drops_unresolvable_ids_witness :
  resolvable {| entry_id := Some 99; entry_name := Some "Medicine";
                entry_score := Some (Py.Float 0.8);
                entry_evidence := Some "clinical trial" |} = false /\
  _parse_classification_result
    (FileJson
       {| data_disciplines :=
            Some ([ {| entry_id := Some 2; entry_name := Some "Health";
                       entry_score := Some (Py.Float 0.5);
                       entry_evidence := Some "patients" |} ] ++
                  {| entry_id := Some 99; entry_name := Some "Medicine";
                     entry_score := Some (Py.Float 0.8);
                     entry_evidence := Some "clinical trial" |} :: []);
          data_confidence := Some (Py.Float 0.9);
          data_reasoning := None |}) =
  _parse_classification_result
    (FileJson
       {| data_disciplines :=
            Some ([ {| entry_id := Some 2; entry_name := Some "Health";
                       entry_score := Some (Py.Float 0.5);
                       entry_evidence := Some "patients" |} ] ++ []);
          data_confidence := Some (Py.Float 0.9);
          data_reasoning := None |}).
Proof.
  split.
  - reflexivity.
  - apply (proj1 (proj2 parse_drops_unresolvable_ids)). reflexivity.
Defined.

(** C3. The parser returns the first three entries of the surviving
    entries sorted by score: the sorted list is a rearrangement of the
    survivors, its scores never increase, and entries of equal score keep
    the order they have among the survivors, which is the order of the
    oracle's entries.  Hence every list the parser returns is
    non-increasing by score and has at most 3 entries.  Oracle ids
    [3, 1, 17] with scores [0.4, 0.9, 0.6] come out as ids [1, 17, 3]. *)
Theorem parse_sorts_and_truncates :
  (forall data : oracle_data,
      let sorted :=
        Py.sorted_reverse DisciplineResult.relevance_score (survivors data) in
      DisciplineClassification.disciplines
        (_parse_classification_result (FileJson data)) = firstn 3 sorted /\
      Permutation sorted (survivors data) /\
      StronglySorted score_ge sorted /\
      (forall v : Py.number, with_score v sorted = with_score v (survivors data)) /\
      (survivors data = [ default_discipline ] \/
       map kept_of_result (survivors data) =
       map kept_of_entry
           (filter resolvable (Py.field_get (data_disciplines data) [])))) /\
  (forall file : output_file,
      StronglySorted score_ge
        (DisciplineClassification.disciplines (_parse_classification_result file)) /\
      (List.length
         (DisciplineClassification.disciplines (_parse_classification_result file))
       <= 3)%nat) /\
  DisciplineClassification.disciplines
    (_parse_classification_result
       (FileJson
          {| data_disciplines :=
               Some [ {| entry_id := Some 3; entry_name := Some "Chemistry";
                         entry_score := Some (Py.Float 0.4);
                         entry_evidence := Some "e3" |};
                      {| entry_id := Some 1; entry_name := Some "Computer Science";
                         entry_score := Some (Py.Float 0.9);
                         entry_evidence := Some "e1" |};
                      {| entry_id := Some 17; entry_name := Some "Mathematics";
                         entry_score := Some (Py.Float 0.6);
                         entry_evidence := Some "e17" |} ];
             data_confidence := None;
             data_reasoning := None |})) =
  [ DisciplineResult.mk 1 "Computer Science" (Py.Float 0.9) "e1";
    DisciplineResult.mk 17 "Mathematics" (Py.Float 0.6) "e17";
    DisciplineResult.mk 3 "Chemistry" (Py.Float 0.4) "e3" ] /\
  DisciplineClassification.disciplines
    (_parse_classification_result
       (FileJson
          {| data_disciplines :=
               Some [ {| entry_id := Some 3; entry_name := None;
                         entry_score := Some (Py.Float 0.5);
                         entry_evidence := None |};
                      {| entry_id := Some 1; entry_name := None;
                         entry_score := Some (Py.Float 0.9);
                         entry_evidence := None |};
                      {| entry_id := Some 17; entry_name := None;
                         entry_score := Some (Py.Float 0.5);
                         entry_evidence := None |};
                      {| entry_id := Some 2; entry_name := None;
                         entry_score := Some (Py.Float 0.5);
                         entry_evidence := None |} ];
             data_confidence := None;
             data_reasoning := None |})) =
  [ DisciplineResult.mk 1 "Computer Science" (Py.Float 0.9) "";
    DisciplineResult.mk 3 "Chemistry" (Py.Float 0.5) "";
    DisciplineResult.mk 17 "Mathematics" (Py.Float 0.5) "" ].
Proof.
  split; [ | split; [ | split ] ].
  - intros data sorted. subst sorted. split; [ | split; [ | split; [ | split ] ] ].
    + now rewrite parse_FileJson.
    + apply sorted_reverse_perm.
    + apply sorted_survivors.
    + intro v. apply sorted_reverse_stable.
    + unfold survivors.
      rewrite <- parse_disciplines_filter.
      destruct (parse_disciplines _); [ now left | now right ].
  - intro file. split; [ | apply parse_length ].
    destruct file as [ | | data ].
    + repeat constructor.
    + repeat constructor.
    + rewrite parse_FileJson. cbn [DisciplineClassification.disciplines].
      apply firstn_StronglySorted, sorted_survivors.
  - reflexivity.
  - reflexivity.
Qed.




(** C5. Clamping always yields a float between 0 and 1: 0 for a value
    below 0, 1 for a value above 1, the value itself in between (1.7 becomes
    1.0, -0.2 becomes 0.0).  In a parsed classification the confidence is
    the oracle's [confidence] clamped, 0.7 when the field is absent, and
    the score of every entry is the clamped score of an oracle entry (or
    the 0.5 of the default entry); all of them lie between 0 and 1, also on
    the fallback paths. *)
Theorem parse_clamps_scores :
  (forall x : Py.number, unit_interval (clamp x)) /\
  (forall (x : Py.number) (v : Q),
      Py.finite x = Some v ->
      exists q : Q,
        clamp x = Py.Float q /\
        ((v <= 0)%Q -> (q == 0)%Q) /\
        ((1 <= v)%Q -> (q == 1)%Q) /\
        ((0 <= v <= 1)%Q -> (q == v)%Q)) /\
  clamp (Py.Float 1.7) = Py.Float 1.0 /\
  clamp (Py.Float (-0.2)) = Py.Float 0.0 /\
  (forall data : oracle_data,
      let c := _parse_classification_result (FileJson data) in
      DisciplineClassification.confidence_score c =
        clamp (Py.field_get (data_confidence data) (Py.Float 0.7)) /\
      (data_confidence data = None ->
       DisciplineClassification.confidence_score c = Py.Float 0.7) /\
      Forall
        (fun r =>
           r = default_discipline \/
           exists e,
             In e (Py.field_get (data_disciplines data) []) /\
             resolvable e = true /\
             DisciplineResult.relevance_score r =
               clamp (Py.field_get (entry_score e) (Py.Float 0.0)))
        (DisciplineClassification.disciplines c)) /\
  (forall file : output_file,
      let c := _parse_classification_result file in
      unit_interval (DisciplineClassification.confidence_score c) /\
      Forall (fun r => unit_interval (DisciplineResult.relevance_score r))
             (DisciplineClassification.disciplines c)).
Proof.
  split; [ exact clamp_unit_interval | ].
  split; [ exact clamp_finite | ].
  split; [ reflexivity | ].
  split; [ reflexivity | ].
  split.
  - intros data c. subst c. split; [ | split ].
    + now rewrite parse_FileJson.
    + intro Hnone. rewrite parse_FileJson, Hnone. reflexivity.
    + apply Forall_forall. intros r Hr.
      apply parse_In_survivors in Hr. now apply survivors_origin.
  - intros file c. subst c. destruct file as [ | | data ].
    + split; [ exists 0.3%Q; split; [ reflexivity | lra ] | ].
      constructor; [ | constructor ].
      exists 0.5%Q. split; [ reflexivity | lra ].
    + split; [ exists 0.3%Q; split; [ reflexivity | lra ] | ].
      constructor; [ | constructor ].
      exists 0.5%Q. split; [ reflexivity | lra ].
    + split.
      * rewrite parse_FileJson. apply clamp_unit_interval.
      * apply Forall_forall. intros r Hr.
        apply parse_In_survivors in Hr.
        revert r Hr. apply Forall_forall, survivors_unit_interval.
Qed.

(** The finite score 1.7 is clamped to a float equal to 1, and a missing
    confidence gives 0.7. *)
Lemma parse_clamps_scores_witness :
  Py.finite (Py.Float 1.7) = Some 1.7%Q /\
  (exists q : Q,
      clamp (Py.Float 1.7) = Py.Float q /\
      ((1.7 <= 0)%Q -> (q == 0)%Q) /\
      ((1 <= 1.7)%Q -> (q == 1)%Q) /\
      ((0 <= 1.7 <= 1)%Q -> (q == 1.7)%Q)) /\
  DisciplineClassification.confidence_score
    (_parse_classification_result
       (FileJson {| data_disciplines := None; data_confidence := None;
                    data_reasoning := None |})) = Py.Float 0.7.
Proof.
  split; [ reflexivity | split ].
  - apply (proj1 (proj2 parse_clamps_scores) (Py.Float 1.7) 1.7%Q). reflexivity.
  - apply (proj1 (proj2 (proj2 (proj2 (proj2 parse_clamps_scores))))
             {| data_disciplines := None; data_confidence := None;
                data_reasoning := None |}).
    reflexivity.
Defined.

(** C10. The validation pass changes nothing but the disciplines list: the
    confidence score, the reasoning and the classification id of its result
    are those of its argument, both when some entry survives and when none
    does and the single fallback entry is substituted. *)
Theorem validate_disciplines_frame (classification : DisciplineClassification.t) :
  let validated := _validate_disciplines classification in
  (DisciplineClassification.confidence_score validated =
     DisciplineClassification.confidence_score classification /\
   DisciplineClassification.classification_reasoning validated =
     DisciplineClassification.classification_reasoning classification /\
   DisciplineClassification.discipline_classification_id validated =
     DisciplineClassification.discipline_classification_id classification) /\
  (validate_loop (DisciplineClassification.disciplines classification) = [] ->
   validated =
     DisciplineClassification.mk
       [ DisciplineResult.mk 1 "Computer Science" (Py.Float 0.5)
           "Fallback classification" ]
       (DisciplineClassification.confidence_score classification)
       (DisciplineClassification.classification_reasoning classification)
       (DisciplineClassification.discipline_classification_id classification)) /\
  (validate_loop (DisciplineClassification.disciplines classification) <> [] ->
   validated =
     DisciplineClassification.mk
       (validate_loop (DisciplineClassification.disciplines classification))
       (DisciplineClassification.confidence_score classification)
       (DisciplineClassification.classification_reasoning classification)
       (DisciplineClassification.discipline_classification_id classification)).
Proof.
  intro validated. subst validated. unfold _validate_disciplines.
  split; [ split; [ | split ]; reflexivity | split ].
  - intros ->. reflexivity.
  - intro H. destruct (validate_loop _); [ congruence | reflexivity ].
Qed.

(** A classification whose only discipline has the unknown id 99: no entry
    survives, the fallback entry is substituted and the other three fields
    are kept. *)
Lemma validate_disciplines_frame_witness :
  validate_loop [ DisciplineResult.mk 99 "Astrology" (Py.Float 0.9) "stars" ] = [] /\
  _validate_disciplines
    (DisciplineClassification.mk
       [ DisciplineResult.mk 99 "Astrology" (Py.Float 0.9) "stars" ]
       (Py.Float 0.8) "about stars" "analysis-17") =
  DisciplineClassification.mk
    [ DisciplineResult.mk 1 "Computer Science" (Py.Float 0.5)
        "Fallback classification" ]
    (Py.Float 0.8) "about stars" "analysis-17".
Proof.
  split.
  - reflexivity.
  - apply (proj1 (proj2 (validate_disciplines_frame
                           (DisciplineClassification.mk
                              [ DisciplineResult.mk 99 "Astrology" (Py.Float 0.9) "stars" ]
                              (Py.Float 0.8) "about stars" "analysis-17")))).
    reflexivity.
Defined.

(* ------------------------------------------------------------------ *)
(** * Expert-role derivation *)

Section RosterFacts.

Lemma nth_error_enumerate_map {A B} (f : Z -> A -> B) (l : list A) :
  forall (start : Z) (i : nat),
    nth_error (Py.enumerate_map f start l) i =
    option_map (f (start + Z.of_nat i)) (nth_error l i).
Proof.
  induction l as [ | x l IH ]; intros start [ | i ]; simpl; try reflexivity.
  - now rewrite Z.add_0_r.
  - rewrite IH. do 2 f_equal. lia.
Qed.

Lemma nth_error_firstn {A} (n : nat) (l : list A) (i : nat) (x : A) :
  nth_error (firstn n l) i = Some x -> nth_error l i = Some x.
Proof.
  revert l i. induction n as [ | n IH ]; intros [ | y l ] [ | i ]; simpl;
    try discriminate; auto.
Qed.

Lemma nth_error_slice_to {A} (l : list A) (n : Z) (i : nat) (x : A) :
  nth_error (Py.slice_to l n) i = Some x -> nth_error l i = Some x.
Proof.
  unfold Py.slice_to. destruct (n <? 0); apply nth_error_firstn.
Qed.

Lemma slice_to_5 {A} (a b c d e : A) :
  Py.slice_to [a; b; c; d; e] 5 = [a; b; c; d; e].
Proof. reflexivity. Qed.

(** The default roster has five entries, so positions 2 and 3 (counted
    from 0) exist when the code assigns to them. *)
Lemma default_roster_length :
  List.length (Py.values DEFAULT_EXPERT_CONFIGS) = 5%nat.
Proof. reflexivity. Qed.

Lemma model_of_position (i : nat) :
  (if Z.of_nat i <? Z.of_nat (List.length models)
   then nth (Z.to_nat (Z.of_nat i)) models "haiku" else "haiku") =
  nth i models "haiku".
Proof.
  destruct (Z.ltb_spec (Z.of_nat i) (Z.of_nat (List.length models))) as [H | H].
  - now rewrite Nat2Z.id.
  - symmetry. apply nth_overflow. lia.
Qed.

End RosterFacts.

(** C6. When the primary (first) discipline of a non-empty list has 5 or
    more mapped role names, the derivation with target 5 returns the first
    5 of them in their order, numbered from 1, all dynamic, each with its
    recorded focus or else the generated sentence naming role and
    discipline, on the tiers sonnet, sonnet, sonnet, haiku, haiku; with any
    target, the role at a position past the fifth is on haiku.  "Computer
    Science" is such a discipline. *)
Theorem expert_roles_bespoke_roster :
  (forall (primary : string) (others : list string),
      let suggested := Py.get_default DISCIPLINE_TO_EXPERT_MAPPING primary [] in
      let focus_of := fun expert_name =>
        expert_focus (Py.get_default DISCIPLINE_EXPERT_FOCUS primary [])
                     expert_name primary in
      (5 <= List.length suggested)%nat ->
      get_expert_roles_for_disciplines (primary :: others) 5 =
        [ ExpertRole.mk 1 (nth 0 suggested "") (focus_of (nth 0 suggested "")) "sonnet" true;
          ExpertRole.mk 2 (nth 1 suggested "") (focus_of (nth 1 suggested "")) "sonnet" true;
          ExpertRole.mk 3 (nth 2 suggested "") (focus_of (nth 2 suggested "")) "sonnet" true;
          ExpertRole.mk 4 (nth 3 suggested "") (focus_of (nth 3 suggested "")) "haiku" true;
          ExpertRole.mk 5 (nth 4 suggested "") (focus_of (nth 4 suggested "")) "haiku" true ] /\
      (forall (num_experts : Z) (i : nat) (role : ExpertRole.t),
          nth_error (get_expert_roles_for_disciplines (primary :: others) num_experts) i
            = Some role ->
          role =
            ExpertRole.mk (Z.of_nat i + 1) (nth i suggested "")
              (focus_of (nth i suggested "")) (nth i models "haiku") true /\
          ((5 <= i)%nat -> ExpertRole.model role = "haiku"))) /\
  (forall (focus_mapping : Py.dict string string) (expert_name primary focus : string),
      Py.get focus_mapping expert_name = Some focus ->
      expert_focus focus_mapping expert_name primary = focus) /\
  (forall (focus_mapping : Py.dict string string) (expert_name primary : string),
      Py.get focus_mapping expert_name = None ->
      expert_focus focus_mapping expert_name primary =
        ("Expert analysis from " ++ expert_name ++ " perspective for " ++ primary)%string) /\
  (5 <= List.length (Py.get_default DISCIPLINE_TO_EXPERT_MAPPING "Computer Science" []))%nat.
Proof.
  split; [ | split; [ | split ] ].
  - intros primary others suggested focus_of H5.
    unfold get_expert_roles_for_disciplines. cbv zeta.
    fold suggested. subst focus_of. cbv beta.
    assert (E : (5 <=? List.length suggested)%nat = true) by now apply Nat.leb_le.
    rewrite E. clear E.
    clearbody suggested.
    split.
    + destruct suggested as [ | n1 [ | n2 [ | n3 [ | n4 [ | n5 more ] ] ] ] ];
        simpl in H5; try lia.
      reflexivity.
    + intros num_experts i role Hrole.
      rewrite nth_error_enumerate_map in Hrole.
      destruct (nth_error (Py.slice_to suggested num_experts) i) as [ name | ] eqn:En;
        [ | discriminate ].
      apply nth_error_slice_to in En.
      apply (nth_error_nth _ _ "") in En.
      simpl in Hrole. injection Hrole as <-.
      rewrite model_of_position, En.
      split; [ reflexivity | ].
      intro Hi. cbn [ExpertRole.model]. apply nth_overflow. simpl. lia.
  - intros focus_mapping expert_name primary focus H.
    unfold expert_focus, Py.get_default. now rewrite H.
  - intros focus_mapping expert_name primary H.
    unfold expert_focus, Py.get_default. now rewrite H.
  - simpl. lia.
Qed.

(** The spec's example for C6: "Computer Science" with target 5. *)
Lemma expert_roles_bespoke_roster_witness :
  (5 <= List.length (Py.get_default DISCIPLINE_TO_EXPERT_MAPPING "Computer Science" []))%nat /\
  get_expert_roles_for_disciplines [ "Computer Science"; "Mathematics" ] 5 =
    [ ExpertRole.mk 1 "Algorithm & Complexity Expert"
        "Algorithm correctness, computational complexity, theoretical analysis, proof validity"
        "sonnet" true;
      ExpertRole.mk 2 "Experimental Design Expert"
        "Benchmark selection, baseline fairness, ablation studies, hyperparameter sensitivity, statistical significance"
        "sonnet" true;
      ExpertRole.mk 3 "Systems & Implementation Expert"
        "Code quality, reproducibility, scalability, engineering practices, open-source availability"
        "sonnet" true;
      ExpertRole.mk 4 "Related Work & Novelty Expert"
        "Literature coverage, novelty claims, fair comparison with prior work, contribution clarity"
        "haiku" true;
      ExpertRole.mk 5 "Clarity & Presentation Expert"
        "Writing quality, figure clarity, notation consistency, logical flow"
        "haiku" true ].
Proof.
  split.
  - exact (proj2 (proj2 (proj2 expert_roles_bespoke_roster))).
  - exact (proj1 (proj1 expert_roles_bespoke_roster "Computer Science" [ "Mathematics" ]
                    (proj2 (proj2 (proj2 expert_roles_bespoke_roster))))).
Defined.

(** C7. When the primary discipline has fewer than 5 mapped role names,
    the derivation with target 5 returns the default five-role roster with
    position 3 replaced by the first mapped role (when there is one) and
    position 4 by the second (when there are two); a replaced entry is
    dynamic and its focus names the primary discipline; positions 1, 2 and
    5 keep the name, focus, tier and flag of the default roster.  With
    another target the same roster is cut to it.  "Mathematics" maps to
    "Statistical Methodologist" and "Formal Methods Expert". *)
Theorem expert_roles_patched_roster :
  (forall (primary : string) (others : list string),
      let suggested := Py.get_default DISCIPLINE_TO_EXPERT_MAPPING primary [] in
      let patched :=
        [ ExpertRole.mk 1 "Methodology Expert"
            "Research methodology, experimental design, validity of approach"
            "sonnet" true;
          ExpertRole.mk 2 "Technical Expert"
            "Technical soundness, implementation details, reproducibility"
            "sonnet" true;
          if (1 <=? List.length suggested)%nat
          then ExpertRole.mk 3 (nth 0 suggested "")
                 ("Domain expertise in " ++ primary)%string "sonnet" true
          else ExpertRole.mk 3 "Domain Expert"
                 "Domain knowledge, literature integration, theoretical foundation"
                 "sonnet" true;
          if (2 <=? List.length suggested)%nat
          then ExpertRole.mk 4 (nth 1 suggested "")
                 ("Technical expertise related to " ++ primary)%string "haiku" true
          else ExpertRole.mk 4 "Related Work Expert"
                 "Literature coverage, novelty assessment, positioning"
                 "haiku" true;
          ExpertRole.mk 5 "Presentation Expert"
            "Clarity, logical coherence, writing quality"
            "haiku" true ] in
      (List.length suggested < 5)%nat ->
      get_expert_roles_for_disciplines (primary :: others) 5 = patched /\
      (forall num_experts : Z,
          get_expert_roles_for_disciplines (primary :: others) num_experts =
          Py.slice_to patched num_experts)) /\
  Py.get_default DISCIPLINE_TO_EXPERT_MAPPING "Mathematics" [] =
    [ "Statistical Methodologist"; "Formal Methods Expert" ] /\
  get_expert_roles_for_disciplines [ "Mathematics" ] 5 =
    [ ExpertRole.mk 1 "Methodology Expert"
        "Research methodology, experimental design, validity of approach"
        "sonnet" true;
      ExpertRole.mk 2 "Technical Expert"
        "Technical soundness, implementation details, reproducibility"
        "sonnet" true;
      ExpertRole.mk 3 "Statistical Methodologist"
        "Domain expertise in Mathematics" "sonnet" true;
      ExpertRole.mk 4 "Formal Methods Expert"
        "Technical expertise related to Mathematics" "haiku" true;
      ExpertRole.mk 5 "Presentation Expert"
        "Clarity, logical coherence, writing quality"
        "haiku" true ].
Proof.
  split; [ | split; reflexivity ].
  intros primary others suggested patched Hlt.
  assert (Hany : forall num_experts : Z,
             get_expert_roles_for_disciplines (primary :: others) num_experts =
             Py.slice_to patched num_experts).
  { intro num_experts.
    unfold get_expert_roles_for_disciplines. cbv zeta.
    fold suggested. subst patched.
    assert (E : (5 <=? List.length suggested)%nat = false) by now apply Nat.leb_gt.
    rewrite E. clear E. clearbody suggested.
    destruct (1 <=? List.length suggested)%nat, (2 <=? List.length suggested)%nat;
      reflexivity. }
  split; [ | exact Hany ].
  rewrite Hany. subst patched. apply slice_to_5.
Qed.

(** The hypothesis of C7 at "Mathematics" and at a discipline without any
    mapping. *)
Lemma expert_roles_patched_roster_witness :
  (List.length (Py.get_default DISCIPLINE_TO_EXPERT_MAPPING "Mathematics" []) < 5)%nat /\
  get_expert_roles_for_disciplines [ "Mathematics"; "Physics" ] 3 =
    [ ExpertRole.mk 1 "Methodology Expert"
        "Research methodology, experimental design, validity of approach"
        "sonnet" true;
      ExpertRole.mk 2 "Technical Expert"
        "Technical soundness, implementation details, reproducibility"
        "sonnet" true;
      ExpertRole.mk 3 "Statistical Methodologist"
        "Domain expertise in Mathematics" "sonnet" true ].
Proof.
  assert (H : (List.length
                 (Py.get_default DISCIPLINE_TO_EXPERT_MAPPING "Mathematics" []) < 5)%nat)
    by (simpl; lia).
  split; [ exact H | ].
  exact (proj2 (proj1 expert_roles_patched_roster "Mathematics" [ "Physics" ] H) 3).
Defined.

(* ------------------------------------------------------------------ *)
(** * Section-type inference *)

Section SubstringFacts.

Variable lower : string -> string.

Lemma prefix_append (sub s : string) :
  String.prefix sub s = true <-> exists after, s = (sub ++ after)%string.
Proof.
  revert s. induction sub as [ | a sub IH ]; intros [ | b s ]; simpl.
  - split; [ intros _; now exists "" | reflexivity ].
  - split; [ intros _; now exists (String b s) | reflexivity ].
  - split; [ discriminate | intros [after H]; discriminate ].
  - destruct (ascii_dec a b) as [ <- | Hab ].
    + rewrite IH. split; intros [after H]; exists after.
      * now rewrite H.
      * now injection H.
    + split; [ discriminate | ].
      intros [after H]. injection H as Hb _. congruence.
Qed.

Lemma str_in_empty (sub : string) :
  Py.str_in sub "" = String.prefix sub "".
Proof. unfold Py.str_in. now destruct (String.prefix sub ""). Qed.

Lemma str_in_String (sub : string) (c : ascii) (s : string) :
  Py.str_in sub (String c s) =
  (String.prefix sub (String c s) || Py.str_in sub s)%bool.
Proof.
  change (Py.str_in sub (String c s))
    with (if String.prefix sub (String c s) then true else Py.str_in sub s).
  now destruct (String.prefix sub (String c s)).
Qed.

Lemma str_in_occurs_in (sub s : string) :
  Py.str_in sub s = true <-> occurs_in sub s.
Proof.
  unfold occurs_in. split.
  - induction s as [ | c s IH ].
    + rewrite str_in_empty. intro E.
      apply prefix_append in E as [after E].
      now exists "", after.
    + rewrite str_in_String. intro H.
      apply orb_true_iff in H as [E | H].
      * apply prefix_append in E as [after E].
        now exists "", after.
      * destruct (IH H) as [before [after ->]].
        now exists (String c before), after.
  - intros [before [after ->]].
    induction before as [ | c before IH ].
    + assert (E : String.prefix sub (sub ++ after) = true)
        by (apply prefix_append; now exists after).
      change ("" ++ sub ++ after)%string with (sub ++ after)%string.
      destruct (sub ++ after)%string as [ | c s ].
      * now rewrite str_in_empty.
      * rewrite str_in_String, E. reflexivity.
    + change (String c before ++ sub ++ after)%string
        with (String c (before ++ sub ++ after)).
      rewrite str_in_String, IH. apply orb_true_r.
Qed.

Lemma keyword_loop_matches (section_name section_type : string)
    (keywords : list string) :
  keyword_loop keywords (lower section_name) = true <->
  category_matches lower section_name (section_type, keywords).
Proof.
  unfold category_matches. simpl.
  induction keywords as [ | keyword rest IH ]; simpl.
  - split; [ discriminate | intros [k [[] _]] ].
  - destruct (Py.str_in keyword (lower section_name)) eqn:E.
    + split; [ intros _ | reflexivity ].
      exists keyword. split; [ now left | now apply str_in_occurs_in ].
    + rewrite IH. split.
      * intros [k [Hin Hk]]. exists k. split; [ now right | exact Hk ].
      * intros [k [[<- | Hin] Hk]].
        -- apply str_in_occurs_in in Hk. congruence.
        -- now exists k.
Qed.

(** The outer loop returns the type of the first matching entry. *)
Lemma type_loop_first (section_name : string)
    (before after : Py.dict string (list string))
    (section_type : string) (keywords : list string) :
  Forall (fun entry => ~ category_matches lower section_name entry) before ->
  category_matches lower section_name (section_type, keywords) ->
  type_loop (before ++ (section_type, keywords) :: after) (lower section_name)
    = Some section_type.
Proof.
  intros Hbefore Hmatch.
  induction Hbefore as [ | [t ks] before Hno _ IH ]; simpl.
  - apply (keyword_loop_matches _ section_type) in Hmatch. now rewrite Hmatch.
  - destruct (keyword_loop ks (lower section_name)) eqn:E; [ | exact IH ].
    apply (keyword_loop_matches _ t) in E. contradiction.
Qed.

Lemma type_loop_none (section_name : string) (mappings : Py.dict string (list string)) :
  type_loop mappings (lower section_name) = None <->
  Forall (fun entry => ~ category_matches lower section_name entry) mappings.
Proof.
  induction mappings as [ | [t ks] mappings IH ]; simpl.
  - split; [ constructor | reflexivity ].
  - destruct (keyword_loop ks (lower section_name)) eqn:E.
    + split; [ discriminate | ].
      intro H. apply Forall_cons_iff in H as [H _].
      exfalso. apply H. now apply (keyword_loop_matches _ t).
    + rewrite IH. split.
      * intro H. constructor; [ | exact H ].
        intro Hm. apply (keyword_loop_matches _ t) in Hm. congruence.
      * intro H. now apply Forall_cons_iff in H.
Qed.

End SubstringFacts.

(** C8, as the code has it.  The inferred type of a section is the type of
    the first entry of the ordered type-to-keywords list one of whose
    keywords occurs in the lower-cased section name, so that names with the
    same lower-cased form (names that differ only by case) get the same
    type; when no keyword occurs, it is the default type passed by the
    caller, and "content" only when that default is empty.  This holds
    whatever [str.lower] does to the name. *)
Theorem infer_section_type_first_match
    (lower : string -> string) (section_name default_type : string) :
  (forall (before after : Py.dict string (list string))
          (section_type : string) (keywords : list string),
      type_mappings = before ++ (section_type, keywords) :: after ->
      Forall (fun entry => ~ category_matches lower section_name entry) before ->
      category_matches lower section_name (section_type, keywords) ->
      _infer_section_type lower section_name default_type = section_type) /\
  (Forall (fun entry => ~ category_matches lower section_name entry) type_mappings ->
   (default_type = "" ->
    _infer_section_type lower section_name default_type = "content") /\
   (default_type <> "" ->
    _infer_section_type lower section_name default_type = default_type)) /\
  (forall other : string,
      lower other = lower section_name ->
      _infer_section_type lower other default_type =
      _infer_section_type lower section_name default_type).
Proof.
  split; [ | split ].
  - intros before after section_type keywords Hmap Hbefore Hmatch.
    unfold _infer_section_type. rewrite Hmap.
    now rewrite (type_loop_first lower _ _ _ _ _ Hbefore Hmatch).
  - intro Hnone. apply type_loop_none in Hnone.
    unfold _infer_section_type. rewrite Hnone. split.
    + intros ->. reflexivity.
    + intro Hd. destruct default_type; [ congruence | reflexivity ].
  - intros other Hother. unfold _infer_section_type. now rewrite Hother.
Qed.

(** A section named "3. METHODS and Results" is of type "methods": the
    entry before it has no keyword in the name, and "method" occurs in it.
    The names are ASCII, on which [str.lower] is [Py.lower]. *)
Lemma infer_section_type_first_match_witness :
  _infer_section_type Py.lower "3. METHODS and Results" "section" = "methods" /\
  _infer_section_type Py.lower "Funding" "" = "content".
Proof.
  split.
  - apply (proj1 (infer_section_type_first_match Py.lower
                    "3. METHODS and Results" "section")
             [ ("introduction", [ "introduction"; "intro"; "background" ]) ]
             (skipn 2 type_mappings) "methods"
             [ "method"; "methodology"; "approach"; "materials and methods" ]).
    + reflexivity.
    + apply type_loop_none. reflexivity.
    + apply (keyword_loop_matches Py.lower _ "methods"). reflexivity.
  - apply (proj1 (proj2 (infer_section_type_first_match Py.lower "Funding" ""))).
    + apply type_loop_none. reflexivity.
    + reflexivity.
Defined.

(** C8 as the specification words it fails: with no keyword in the name,
    the result is the caller's default type, not "content".  The name
    "Acknowledgements" is ASCII, on which [str.lower] is [Py.lower]. *)
Lemma infer_section_type_default_is_not_content :
  ~ (forall section_name default_type : string,
        Forall (fun entry => ~ category_matches Py.lower section_name entry)
               type_mappings ->
        _infer_section_type Py.lower section_name default_type = "content").
Proof.
  intro H.
  specialize (H "Acknowledgements" "acknowledgements").
  assert (Hnone : Forall (fun entry =>
                            ~ category_matches Py.lower "Acknowledgements" entry)
                         type_mappings)
    by (apply type_loop_none; reflexivity).
  specialize (H Hnone). discriminate H.
Qed.

(* ------------------------------------------------------------------ *)
(** * The storage payload *)

(** C9.  Rebuilding a classification from its payload dictionary always
    succeeds and gives back the confidence score, the reasoning and the
    classification id, but the [disciplines] attribute of the rebuilt
    instance holds the payload's dictionaries, not [DisciplineResult]
    instances: the rebuilt instance is the original one only when the
    original has no discipline, and it is not for the fallback
    classification. *)
Theorem classification_payload_reconstruction :
  (forall c : DisciplineClassification.t,
      exists rebuilt : ClassificationInstance.t,
        DisciplineClassification_init (_classification_to_dict c) = Some rebuilt /\
        ClassificationInstance.confidence_score rebuilt =
          VNum (DisciplineClassification.confidence_score c) /\
        ClassificationInstance.classification_reasoning rebuilt =
          VStr (DisciplineClassification.classification_reasoning c) /\
        ClassificationInstance.discipline_classification_id rebuilt =
          VStr (DisciplineClassification.discipline_classification_id c) /\
        ClassificationInstance.disciplines rebuilt =
          VList
            (map (fun d =>
                    VDict
                      [ ("discipline_id", VNum (Py.Int (DisciplineResult.discipline_id d)));
                        ("name", VStr (DisciplineResult.name d));
                        ("relevance_score", VNum (DisciplineResult.relevance_score d));
                        ("evidence", VStr (DisciplineResult.evidence d)) ])
                 (DisciplineClassification.disciplines c))) /\
  (forall c : DisciplineClassification.t,
      DisciplineClassification_init (_classification_to_dict c) =
        Some (ClassificationInstance.of_classification c) <->
      DisciplineClassification.disciplines c = []) /\
  DisciplineClassification_init (_classification_to_dict _fallback_classification) =
    Some
      (ClassificationInstance.mk
         (VList
            [ VDict
                [ ("discipline_id", VNum (Py.Int 1));
                  ("name", VStr "Computer Science");
                  ("relevance_score", VNum (Py.Float 0.5));
                  ("evidence", VStr "Fallback due to classification failure") ] ])
         (VNum (Py.Float 0.3))
         (VStr "Fallback classification due to processing error")
         (VStr "")) /\
  DisciplineClassification_init (_classification_to_dict _fallback_classification) <>
    Some (ClassificationInstance.of_classification _fallback_classification).
Proof.
  split; [ | split; [ | split ] ].
  - intro c. eexists. split; [ reflexivity | ]. repeat split.
  - intros [ds cs cr ci]. cbn [DisciplineClassification.disciplines]. split.
    + intro H. injection H as H.
      destruct ds as [ | d ds ]; [ reflexivity | discriminate H ].
    + intros ->. reflexivity.
  - reflexivity.
  - discriminate.
Qed.

(* ------------------------------------------------------------------ *)
(** * Further properties of the validation pass *)

Section ValidateFacts.

Lemma validate_loop_is_canonical (l : list DisciplineResult.t) :
  Forall canonical (validate_loop l).
Proof.
  induction l as [ | r l IH ]; simpl; [ constructor | ].
  destruct (get_discipline_by_id (DisciplineResult.discipline_id r)) as [d | ] eqn:E;
    [ | exact IH ].
  constructor; [ | exact IH ].
  exists d. split; [ exact E | reflexivity ].
Qed.

Lemma validate_loop_filter (l : list DisciplineResult.t) :
  map kept_of_result (validate_loop l) =
  map kept_of_result (filter result_resolvable l).
Proof.
  induction l as [ | r l IH ]; [ reflexivity | ].
  cbn [validate_loop filter]. unfold result_resolvable at 1.
  destruct (get_discipline_by_id (DisciplineResult.discipline_id r)); [ | exact IH ].
  cbn [map]. now rewrite IH.
Qed.

Lemma validated_disciplines_canonical (c : DisciplineClassification.t) :
  Forall canonical (DisciplineClassification.disciplines (_validate_disciplines c)).
Proof.
  unfold _validate_disciplines. cbn [DisciplineClassification.disciplines].
  pose proof (validate_loop_is_canonical (DisciplineClassification.disciplines c)) as H.
  destruct (validate_loop _).
  - constructor; [ | constructor ]. eexists. split; reflexivity.
  - exact H.
Qed.

Lemma validated_disciplines_not_nil (c : DisciplineClassification.t) :
  DisciplineClassification.disciplines (_validate_disciplines c) <> [].
Proof.
  unfold _validate_disciplines. cbn [DisciplineClassification.disciplines].
  destruct (validate_loop _); discriminate.
Qed.

End ValidateFacts.

(** X1. The validation pass is idempotent: validating an already validated
    classification changes nothing, whatever the first classification
    was. *)
Theorem validate_disciplines_idempotent (classification : DisciplineClassification.t) :
  _validate_disciplines (_validate_disciplines classification) =
  _validate_disciplines classification.
Proof.
  pose proof (validated_disciplines_canonical classification) as Hc.
  pose proof (validated_disciplines_not_nil classification) as Hn.
  destruct (_validate_disciplines classification) as [ds cs cr ci].
  cbn [DisciplineClassification.disciplines] in Hc, Hn.
  unfold _validate_disciplines. cbn.
  rewrite (validate_loop_canonical ds Hc).
  destruct ds; [ congruence | reflexivity ].
Qed.

(** X2. Whatever classification it is given, the validation pass returns
    at least one discipline, every discipline it returns has an id of the
    taxonomy and the canonical name of that id, and unless it substitutes
    the single fallback entry it returns the entries of resolvable id in
    their order with id, score and evidence unchanged. *)
Theorem validate_disciplines_result (classification : DisciplineClassification.t) :
  let validated :=
    DisciplineClassification.disciplines (_validate_disciplines classification) in
  validated <> [] /\
  Forall canonical validated /\
  Forall (fun r => 1 <= DisciplineResult.discipline_id r <= 23) validated /\
  (validated =
     [ DisciplineResult.mk 1 "Computer Science" (Py.Float 0.5)
         "Fallback classification" ] /\
   filter result_resolvable
     (DisciplineClassification.disciplines classification) = []
   \/
   map kept_of_result validated =
   map kept_of_result
     (filter result_resolvable
        (DisciplineClassification.disciplines classification))).
Proof.
  intro validated. subst validated.
  split; [ apply validated_disciplines_not_nil | ].
  split; [ apply validated_disciplines_canonical | ].
  split.
  - pose proof (validated_disciplines_canonical classification) as H.
    revert H. apply Forall_impl. intros r [d [Hd _]].
    now apply get_discipline_by_id_Some in Hd.
  - unfold _validate_disciplines. cbn [DisciplineClassification.disciplines].
    pose proof (validate_loop_filter
                  (DisciplineClassification.disciplines classification)) as H.
    destruct (validate_loop _) as [ | r l ].
    + left. split; [ reflexivity | ].
      destruct (filter result_resolvable _); [ reflexivity | discriminate H ].
    + right. exact H.
Qed.

(** X3. On every classification the parser returns, the validation pass
    changes nothing: no parsed entry is dropped by the second check and the
    fallback entry of the validation pass is never substituted.  The
    classification [classify_paper] returns is the parsed one with the
    assigned id. *)
Theorem validate_after_parse_is_identity
    (file : output_file) (classification_id : string) :
  _validate_disciplines (_parse_classification_result file) =
    _parse_classification_result file /\
  classify_paper file classification_id =
    DisciplineClassification.mk
      (DisciplineClassification.disciplines (_parse_classification_result file))
      (DisciplineClassification.confidence_score (_parse_classification_result file))
      (DisciplineClassification.classification_reasoning
         (_parse_classification_result file))
      classification_id.
Proof.
  split; [ apply validate_parse | ].
  unfold classify_paper. now rewrite validate_parse.
Qed.

(* ------------------------------------------------------------------ *)
(** * Further properties of the parser *)

Section TruncationFacts.

Lemma StronglySorted_app_inv {A} (R : A -> A -> Prop) (l1 l2 : list A) :
  StronglySorted R (l1 ++ l2) ->
  forall x y, In x l1 -> In y l2 -> R x y.
Proof.
  induction l1 as [ | a l1 IH ]; simpl; intros Hs x y Hx Hy; [ contradiction | ].
  apply StronglySorted_inv in Hs as [Hs Ha].
  destruct Hx as [ <- | Hx ].
  - apply (proj1 (Forall_forall _ _) Ha). apply in_or_app. now right.
  - now apply IH.
Qed.

Lemma parse_disciplines_length (entries : list oracle_entry) :
  List.length (parse_disciplines entries) = List.length (filter resolvable entries).
Proof.
  rewrite <- (length_map kept_of_result), parse_disciplines_filter.
  apply length_map.
Qed.

Lemma survivors_length (data : oracle_data) :
  List.length (survivors data) =
  Nat.max 1 (List.length (filter resolvable (Py.field_get (data_disciplines data) []))).
Proof.
  unfold survivors. rewrite <- parse_disciplines_length.
  destruct (parse_disciplines _) as [ | d l ]; cbn [List.length]; lia.
Qed.

End TruncationFacts.

(** X4. On a decoded oracle object the parser returns exactly
    min(3, max(1, k)) disciplines, where k is the number of oracle entries
    whose id resolves. *)
Theorem parse_disciplines_count (data : oracle_data) :
  List.length
    (DisciplineClassification.disciplines
       (_parse_classification_result (FileJson data))) =
  Nat.min 3
    (Nat.max 1
       (List.length
          (filter resolvable (Py.field_get (data_disciplines data) [])))).
Proof.
  rewrite parse_FileJson. cbn [DisciplineClassification.disciplines].
  rewrite length_firstn.
  rewrite (Permutation_length (sorted_reverse_perm _ (survivors data))).
  now rewrite survivors_length.
Qed.

(** X5. The truncation to three keeps the best: the returned disciplines
    together with the entries left out are the surviving entries, and no
    entry left out has a higher score than a returned one. *)
Theorem parse_keeps_highest_scores (data : oracle_data) :
  let sorted :=
    Py.sorted_reverse DisciplineResult.relevance_score (survivors data) in
  let returned :=
    DisciplineClassification.disciplines
      (_parse_classification_result (FileJson data)) in
  Permutation (returned ++ skipn 3 sorted) (survivors data) /\
  (forall kept left_out : DisciplineResult.t,
      In kept returned -> In left_out (skipn 3 sorted) ->
      score_ge kept left_out).
Proof.
  intros sorted returned. subst returned.
  rewrite parse_FileJson. cbn [DisciplineClassification.disciplines].
  fold sorted. split.
  - rewrite firstn_skipn. apply sorted_reverse_perm.
  - apply StronglySorted_app_inv. rewrite firstn_skipn.
    apply sorted_survivors.
Qed.

(** Four resolvable entries: the one of score 0.2 is left out and is not
    above the returned entry of score 0.5. *)
Lemma parse_keeps_highest_scores_witness :
  score_ge (DisciplineResult.mk 3 "Chemistry" (Py.Float 0.5) "")
           (DisciplineResult.mk 2 "Medicine" (Py.Float 0.2) "").
Proof.
  apply (proj2 (parse_keeps_highest_scores
                  {| data_disciplines :=
                       Some [ {| entry_id := Some 3; entry_name := None;
                                 entry_score := Some (Py.Float 0.5);
                                 entry_evidence := None |};
                              {| entry_id := Some 2; entry_name := None;
                                 entry_score := Some (Py.Float 0.2);
                                 entry_evidence := None |};
                              {| entry_id := Some 1; entry_name := None;
                                 entry_score := Some (Py.Float 0.9);
                                 entry_evidence := None |};
                              {| entry_id := Some 17; entry_name := None;
                                 entry_score := Some (Py.Float 0.6);
                                 entry_evidence := None |} ];
                     data_confidence := None;
                     data_reasoning := None |})).
  - right. right. now left.
  - now left.
Defined.

(** X6. When no oracle entry has a resolvable id (in particular when the
    [disciplines] key is missing or its list is empty), the parser returns
    the single default entry "Computer Science" with score 0.5 and evidence
    "Default classification", and still takes confidence and reasoning
    from the oracle's object. *)
Theorem parse_without_resolvable_entry (data : oracle_data) :
  filter resolvable (Py.field_get (data_disciplines data) []) = [] ->
  _parse_classification_result (FileJson data) =
    DisciplineClassification.mk
      [ DisciplineResult.mk 1 "Computer Science" (Py.Float 0.5)
          "Default classification" ]
      (clamp (Py.field_get (data_confidence data) (Py.Float 0.7)))
      (Py.field_get (data_reasoning data) "")
      "".
Proof.
  intro H. rewrite parse_FileJson. unfold survivors.
  pose proof (parse_disciplines_length (Py.field_get (data_disciplines data) [])) as Hl.
  rewrite H in Hl.
  destruct (parse_disciplines _); [ reflexivity | discriminate Hl ].
Qed.

(** An object without the [disciplines] key, with confidence 1.4 and a
    reasoning. *)
Lemma parse_without_resolvable_entry_witness :
  filter resolvable
    (Py.field_get
       (data_disciplines
          {| data_disciplines := None; data_confidence := Some (Py.Float 1.4);
             data_reasoning := Some "no list" |}) []) = [] /\
  _parse_classification_result
    (FileJson {| data_disciplines := None; data_confidence := Some (Py.Float 1.4);
                 data_reasoning := Some "no list" |}) =
    DisciplineClassification.mk
      [ DisciplineResult.mk 1 "Computer Science" (Py.Float 0.5)
          "Default classification" ]
      (Py.Float 1.0) "no list" "".
Proof.
  split; [ reflexivity | ].
  apply (parse_without_resolvable_entry
           {| data_disciplines := None; data_confidence := Some (Py.Float 1.4);
              data_reasoning := Some "no list" |}).
  reflexivity.
Defined.

(* ------------------------------------------------------------------ *)
(** * The primary discipline *)

Section PrimaryFacts.

Context {A : Type} (key : A -> Py.number).

Lemma max_loop_sorted (maxitem : A) (l : list A) :
  Forall (fun x => Py.lt (key maxitem) (key x) = false) l ->
  PySeq.max_loop key maxitem l = maxitem.
Proof.
  induction 1 as [ | x l Hx _ IH ]; simpl; [ reflexivity | ].
  now rewrite Hx.
Qed.

Lemma max_loop_greatest (maxitem : A) (l : list A) :
  Forall (fun x => key x <> Py.NaN) (maxitem :: l) ->
  In (PySeq.max_loop key maxitem l) (maxitem :: l) /\
  Forall (fun x => Py.lt (key (PySeq.max_loop key maxitem l)) (key x) = false)
         (maxitem :: l).
Proof.
  revert maxitem. induction l as [ | item l IH ]; intros maxitem Hnan.
  - simpl. split; [ now left | ].
    constructor; [ | constructor ].
    destruct (Py.lt (key maxitem) (key maxitem)) eqn:E; [ | reflexivity ].
    now rewrite (lt_asym _ _ E) in E.
  - apply Forall_cons_iff in Hnan as [Hm Hnan].
    apply Forall_cons_iff in Hnan as [Hi Hnan].
    cbn [PySeq.max_loop].
    destruct (Py.lt (key maxitem) (key item)) eqn:E.
    + destruct (IH item) as [Hin Hall]; [ now constructor | ].
      split.
      * destruct Hin as [ <- | Hin ]; [ right; now left | right; now right ].
      * apply Forall_cons_iff in Hall as [Hitem Hall].
        constructor; [ | now constructor ].
        apply lt_false_trans with (key item); [ exact Hi | exact Hitem | ].
        now apply lt_asym.
    + destruct (IH maxitem) as [Hin Hall]; [ now constructor | ].
      split.
      * destruct Hin as [ <- | Hin ]; [ now left | right; now right ].
      * apply Forall_cons_iff in Hall as [Hmax Hall].
        constructor; [ exact Hmax | ].
        constructor; [ | exact Hall ].
        now apply lt_false_trans with (key maxitem).
Qed.

End PrimaryFacts.

(** X7. [get_primary_discipline] returns nothing exactly on a classification
    without disciplines; otherwise, when no score is NaN, it returns one of
    the disciplines and no discipline has a higher score. *)
Theorem get_primary_discipline_highest (self : DisciplineClassification.t) :
  (get_primary_discipline self = None <->
   DisciplineClassification.disciplines self = []) /\
  (Forall (fun r => DisciplineResult.relevance_score r <> Py.NaN)
          (DisciplineClassification.disciplines self) ->
   forall primary : DisciplineResult.t,
     get_primary_discipline self = Some primary ->
     In primary (DisciplineClassification.disciplines self) /\
     Forall (fun r =>
               Py.lt (DisciplineResult.relevance_score primary)
                     (DisciplineResult.relevance_score r) = false)
            (DisciplineClassification.disciplines self)).
Proof.
  unfold get_primary_discipline.
  destruct (DisciplineClassification.disciplines self) as [ | d l ].
  - split; [ split; reflexivity | discriminate ].
  - split; [ split; discriminate | ].
    intros Hnan primary [= <-].
    now apply max_loop_greatest.
Qed.

(** A classification with scores 0.4, 0.9 and 0.9: the first of the two
    best is the primary discipline. *)
Lemma get_primary_discipline_highest_witness :
  In (DisciplineResult.mk 1 "Computer Science" (Py.Float 0.9) "")
     [ DisciplineResult.mk 3 "Chemistry" (Py.Float 0.4) "";
       DisciplineResult.mk 1 "Computer Science" (Py.Float 0.9) "";
       DisciplineResult.mk 17 "Mathematics" (Py.Float 0.9) "" ] /\
  Forall (fun r => Py.lt (Py.Float 0.9) (DisciplineResult.relevance_score r) = false)
     [ DisciplineResult.mk 3 "Chemistry" (Py.Float 0.4) "";
       DisciplineResult.mk 1 "Computer Science" (Py.Float 0.9) "";
       DisciplineResult.mk 17 "Mathematics" (Py.Float 0.9) "" ].
Proof.
  apply (proj2 (get_primary_discipline_highest
                  (DisciplineClassification.mk
                     [ DisciplineResult.mk 3 "Chemistry" (Py.Float 0.4) "";
                       DisciplineResult.mk 1 "Computer Science" (Py.Float 0.9) "";
                       DisciplineResult.mk 17 "Mathematics" (Py.Float 0.9) "" ]
                     (Py.Float 0.7) "" ""))).
  - repeat constructor; discriminate.
  - reflexivity.
Defined.

(** The head of a returned classification is its primary discipline. *)
Lemma classify_paper_head
    (file : output_file) (classification_id : string) :
  let c := classify_paper file classification_id in
  exists (first : DisciplineResult.t) (others : list DisciplineResult.t),
    DisciplineClassification.disciplines c = first :: others /\
    get_primary_discipline c = Some first /\
    DisciplineClassification.get_discipline_names c =
      DisciplineResult.name first :: map DisciplineResult.name others.
Proof.
  intro c. subst c.
  unfold classify_paper, get_primary_discipline,
    DisciplineClassification.get_discipline_names.
  cbn [DisciplineClassification.disciplines].
  rewrite validate_parse.
  assert (Hs : StronglySorted (not_above DisciplineResult.relevance_score)
                 (DisciplineClassification.disciplines
                    (_parse_classification_result file))).
  { destruct file as [ | | data ].
    - repeat constructor.
    - repeat constructor.
    - rewrite parse_FileJson. cbn [DisciplineClassification.disciplines].
      apply firstn_StronglySorted, sorted_reverse_sorted.
      pose proof (survivors_unit_interval data) as Hu.
      revert Hu. apply Forall_impl. intro r. apply unit_interval_not_NaN. }
  pose proof (parse_length file) as Hlen.
  destruct (DisciplineClassification.disciplines (_parse_classification_result file))
    as [ | first others ]; [ simpl in Hlen; lia | ].
  exists first, others.
  apply StronglySorted_inv in Hs as [_ Hfirst].
  split; [ reflexivity | split; [ | reflexivity ] ].
  cbn [PySeq.max_key]. f_equal. now apply max_loop_sorted.
Qed.

(** X8. In a classification returned by [classify_paper] the primary
    discipline is the first entry of the list, so that the first name of
    [get_discipline_names] is the name of the primary discipline. *)
Theorem classify_paper_primary_is_first
    (file : output_file) (classification_id : string) :
  let c := classify_paper file classification_id in
  exists (first : DisciplineResult.t) (others : list DisciplineResult.t),
    DisciplineClassification.disciplines c = first :: others /\
    get_primary_discipline c = Some first /\
    DisciplineClassification.get_discipline_names c =
      DisciplineResult.name first :: map DisciplineResult.name others.
Proof.
  exact (classify_paper_head file classification_id).
Qed.

(* ------------------------------------------------------------------ *)
(** * Lookups in the taxonomy *)

Section NameLookupFacts.

Lemma get_discipline_by_name_lower (name name' : string) :
  Py.lower name = Py.lower name' ->
  get_discipline_by_name name = get_discipline_by_name name'.
Proof.
  unfold get_discipline_by_name. now intros ->.
Qed.

Lemma In_DISCIPLINES_values (d : DisciplineDefinition.t) :
  In d (Py.values DISCIPLINES) ->
  get_discipline_by_id (DisciplineDefinition.id d) = Some d /\
  get_discipline_by_name (DisciplineDefinition.name d) = Some d.
Proof.
  unfold Py.values, DISCIPLINES. cbn [map snd].
  intro H. repeat (destruct H as [ <- | H ]; [ split; reflexivity | ]).
  destruct H.
Qed.

End NameLookupFacts.

(** X9. The two lookups of the taxonomy agree.  The definition found for
    an id is found again under its own name written in any case, and a
    definition found for a name has that name up to case and is the one
    found for its id; ids and names (up to case) are thus in one-to-one
    correspondence over 1..23. *)
Theorem discipline_lookups_agree :
  (forall (discipline_id : Z) (d : DisciplineDefinition.t) (name : string),
      get_discipline_by_id discipline_id = Some d ->
      Py.lower name = Py.lower (DisciplineDefinition.name d) ->
      DisciplineDefinition.id d = discipline_id /\
      get_discipline_by_name name = Some d) /\
  (forall (name : string) (d : DisciplineDefinition.t),
      get_discipline_by_name name = Some d ->
      Py.lower (DisciplineDefinition.name d) = Py.lower name /\
      1 <= DisciplineDefinition.id d <= 23 /\
      get_discipline_by_id (DisciplineDefinition.id d) = Some d) /\
  (forall name : string,
      get_discipline_by_name name = None <->
      forall d, In d (Py.values DISCIPLINES) ->
                Py.lower (DisciplineDefinition.name d) <> Py.lower name).
Proof.
  split; [ | split ].
  - intros discipline_id d name Hid Hname.
    pose proof (get_discipline_by_id_Some _ _ Hid) as [_ Hd].
    split; [ exact Hd | ].
    rewrite (get_discipline_by_name_lower _ _ Hname).
    apply In_DISCIPLINES_values.
    unfold get_discipline_by_id in Hid. clear Hname Hd.
    revert Hid. unfold Py.values.
    generalize DISCIPLINES. intro table.
    induction table as [ | [k v] table IH ]; cbn [Py.get map snd];
      [ discriminate | ].
    destruct (Py.key_eqb k discipline_id).
    + intros [= ->]. now left.
    + intro H. right. now apply IH.
  - intros name d H. unfold get_discipline_by_name in H.
    apply find_some in H as [Hin Heq].
    apply String.eqb_eq in Heq.
    split; [ exact Heq | ].
    destruct (In_DISCIPLINES_values d Hin) as [Hid _].
    split; [ | exact Hid ].
    now apply get_discipline_by_id_Some in Hid.
  - intro name. unfold get_discipline_by_name. split.
    + intros H d Hin Heq.
      apply (find_none _ _ H) in Hin.
      apply String.eqb_neq in Hin. contradiction.
    + intro H.
      destruct (find _ (Py.values DISCIPLINES)) as [d | ] eqn:E; [ | reflexivity ].
      apply find_some in E as [Hin Heq].
      apply String.eqb_eq in Heq. now apply H in Hin.
Qed.

(** The name "MATHEMATICS" finds the definition of id 17. *)
Lemma discipline_lookups_agree_witness :
  exists d : DisciplineDefinition.t,
    get_discipline_by_id 17 = Some d /\
    Py.lower "MATHEMATICS" = Py.lower (DisciplineDefinition.name d) /\
    DisciplineDefinition.id d = 17 /\
    get_discipline_by_name "MATHEMATICS" = Some d.
Proof.
  destruct (get_discipline_by_id 17) as [d | ] eqn:E; [ | discriminate E ].
  exists d.
  assert (Hname : Py.lower "MATHEMATICS" = Py.lower (DisciplineDefinition.name d))
    by (injection E as <-; reflexivity).
  split; [ reflexivity | split; [ exact Hname | ] ].
  exact (proj1 discipline_lookups_agree 17 d "MATHEMATICS" E Hname).
Defined.

(* ------------------------------------------------------------------ *)
(** * Further properties of the expert-role derivation *)

Section RosterShape.

(** No discipline has more than five mapped role names. *)
Lemma suggested_at_most_five (primary : string) :
  (List.length (Py.get_default DISCIPLINE_TO_EXPERT_MAPPING primary []) <= 5)%nat.
Proof.
  unfold Py.get_default, DISCIPLINE_TO_EXPERT_MAPPING.
  cbn [Py.get Py.key_eqb Py.Key_string].
  repeat match goal with
    | |- context [ String.eqb ?k primary ] => destruct (String.eqb k primary)
    end; cbn [List.length]; lia.
Qed.

Lemma length_enumerate_map {A B} (f : Z -> A -> B) (l : list A) :
  forall start : Z, List.length (Py.enumerate_map f start l) = List.length l.
Proof.
  induction l as [ | x l IH ]; intro start; simpl; [ reflexivity | ].
  now rewrite IH.
Qed.

Lemma length_setitem {A} (l : list A) (i : nat) (x : A) :
  List.length (Py.setitem l i x) = List.length l.
Proof.
  revert i. induction l as [ | y l IH ]; intros [ | i ]; simpl; try reflexivity.
  now rewrite IH.
Qed.

Lemma length_slice_to {A} (l : list A) (n : Z) :
  List.length (Py.slice_to l n) =
  if n <? 0 then Z.to_nat (Z.of_nat (List.length l) + n)
  else Nat.min (Z.to_nat n) (List.length l).
Proof.
  unfold Py.slice_to. destruct (Z.ltb_spec n 0); rewrite length_firstn; lia.
Qed.

Lemma enumerate_map_firstn {A B} (f : Z -> A -> B) (l : list A) :
  forall (start : Z) (k : nat),
    Py.enumerate_map f start (firstn k l) = firstn k (Py.enumerate_map f start l).
Proof.
  induction l as [ | x l IH ]; intros start [ | k ]; simpl; try reflexivity.
  now rewrite IH.
Qed.

Lemma enumerate_map_slice_to {A B} (f : Z -> A -> B) (l : list A) (n : Z) :
  Py.enumerate_map f 0 (Py.slice_to l n) = Py.slice_to (Py.enumerate_map f 0 l) n.
Proof.
  unfold Py.slice_to. rewrite length_enumerate_map.
  destruct (n <? 0); apply enumerate_map_firstn.
Qed.

(** Before the final slice every roster has five entries, numbered from 1,
    all dynamic, on the tiers of [models]. *)
Lemma expert_roles_unsliced (discipline_names : list string) :
  exists roster : list ExpertRole.t,
    List.length roster = 5%nat /\
    (forall num_experts : Z,
        get_expert_roles_for_disciplines discipline_names num_experts =
        Py.slice_to roster num_experts) /\
    (forall (i : nat) (role : ExpertRole.t),
        nth_error roster i = Some role ->
        ExpertRole.id role = Z.of_nat i + 1 /\
        ExpertRole.is_dynamic role = true /\
        ExpertRole.model role = nth i models "haiku").
Proof.
  destruct discipline_names as [ | primary others ].
  - exists (Py.values DEFAULT_EXPERT_CONFIGS).
    split; [ reflexivity | split; [ reflexivity | ] ].
    intros i role H.
    do 5 (destruct i as [ | i ]; [ injection H as <-; repeat split | ]).
    destruct i; discriminate H.
  - unfold get_expert_roles_for_disciplines. cbv zeta.
    pose proof (suggested_at_most_five primary) as Hle.
    set (suggested := Py.get_default DISCIPLINE_TO_EXPERT_MAPPING primary []) in *.
    set (focus_mapping := Py.get_default DISCIPLINE_EXPERT_FOCUS primary []).
    clearbody suggested focus_mapping.
    destruct (5 <=? List.length suggested)%nat eqn:E.
    + apply Nat.leb_le in E.
      match goal with
      | |- context [ Py.enumerate_map ?f 0 _ ] =>
          exists (Py.enumerate_map f 0 suggested)
      end.
      split; [ rewrite length_enumerate_map; lia | split ].
      * intro num_experts. apply enumerate_map_slice_to.
      * intros i role H. rewrite nth_error_enumerate_map in H.
        destruct (nth_error suggested i) as [ expert_name | ]; [ | discriminate H ].
        simpl in H. injection H as <-.
        cbn [ExpertRole.id ExpertRole.is_dynamic ExpertRole.model].
        split; [ reflexivity | split; [ reflexivity | ] ].
        apply model_of_position.
    + clear E Hle.
      match goal with
      | |- context [ Py.slice_to ?r _ ] => exists r
      end.
      split; [ | split; [ reflexivity | ] ].
      * destruct (1 <=? List.length suggested)%nat, (2 <=? List.length suggested)%nat;
          reflexivity.
      * intros i role H.
        destruct (1 <=? List.length suggested)%nat, (2 <=? List.length suggested)%nat;
          do 5 (destruct i as [ | i ]; [ injection H as <-; repeat split | ]);
          destruct i; discriminate H.
Qed.

End RosterShape.

(** X10. Whatever the discipline names and the target are, the role at
    position i (from 0) of the derived roster has id i + 1, is dynamic, and
    is on the tier sonnet at the first three positions and haiku at the
    others. *)
Theorem expert_roles_shape
    (discipline_names : list string) (num_experts : Z)
    (i : nat) (role : ExpertRole.t) :
  nth_error (get_expert_roles_for_disciplines discipline_names num_experts) i
    = Some role ->
  ExpertRole.id role = Z.of_nat i + 1 /\
  ExpertRole.is_dynamic role = true /\
  ExpertRole.model role = (if (i <? 3)%nat then "sonnet" else "haiku").
Proof.
  destruct (expert_roles_unsliced discipline_names) as [roster [Hlen [Hslice Hshape]]].
  rewrite Hslice. intro H. apply nth_error_slice_to in H.
  assert (Hi : (i < 5)%nat).
  { rewrite <- Hlen. apply nth_error_Some. congruence. }
  destruct (Hshape i role H) as [Hid [Hdyn Hmodel]].
  split; [ exact Hid | split; [ exact Hdyn | ] ].
  rewrite Hmodel.
  do 5 (destruct i as [ | i ]; [ reflexivity | ]). lia.
Qed.

(** The second role derived for "Physics" with target 4. *)
Lemma expert_roles_shape_witness :
  ExpertRole.id (ExpertRole.mk 2 "Technical Expert"
                   "Technical soundness, implementation details, reproducibility"
                   "sonnet" true) = Z.of_nat 1 + 1 /\
  ExpertRole.is_dynamic (ExpertRole.mk 2 "Technical Expert"
                   "Technical soundness, implementation details, reproducibility"
                   "sonnet" true) = true /\
  ExpertRole.model (ExpertRole.mk 2 "Technical Expert"
                   "Technical soundness, implementation details, reproducibility"
                   "sonnet" true) = "sonnet".
Proof.
  apply (expert_roles_shape [ "Physics" ] 4 1). reflexivity.
Defined.

(** X11. The derived roster has min(target, 5) roles for a target of 0 or
    more, and 5 + target roles (none when that is negative) for a negative
    target, which Python's slice counts from the end: with target 5 there
    are always exactly five roles. *)
Theorem expert_roles_count (discipline_names : list string) (num_experts : Z) :
  List.length (get_expert_roles_for_disciplines discipline_names num_experts) =
    (if num_experts <? 0 then Z.to_nat (5 + num_experts)
     else Nat.min (Z.to_nat num_experts) 5) /\
  List.length (get_expert_roles_for_disciplines discipline_names 5) = 5%nat.
Proof.
  destruct (expert_roles_unsliced discipline_names) as [roster [Hlen [Hslice _]]].
  rewrite !Hslice, !length_slice_to, Hlen. split; reflexivity.
Qed.

(** X12. Only the first discipline name counts, and it is looked up as it
    is written: for an empty list, and for a first name that is no key of
    the role mapping (a canonical name in another case, say), the result is
    the default roster cut to the target. *)
Theorem expert_roles_default_roster :
  (forall num_experts : Z,
      get_expert_roles_for_disciplines [] num_experts =
      Py.slice_to (Py.values DEFAULT_EXPERT_CONFIGS) num_experts) /\
  (forall (primary : string) (others : list string) (num_experts : Z),
      Py.get DISCIPLINE_TO_EXPERT_MAPPING primary = None ->
      get_expert_roles_for_disciplines (primary :: others) num_experts =
      Py.slice_to (Py.values DEFAULT_EXPERT_CONFIGS) num_experts) /\
  (forall (primary : string) (others others' : list string) (num_experts : Z),
      get_expert_roles_for_disciplines (primary :: others) num_experts =
      get_expert_roles_for_disciplines (primary :: others') num_experts).
Proof.
  split; [ reflexivity | split; [ | reflexivity ] ].
  intros primary others num_experts H.
  unfold get_expert_roles_for_disciplines, Py.get_default.
  now rewrite H.
Qed.

(** "mathematics" in lower case is no key of the mapping. *)
Lemma expert_roles_default_roster_witness :
  Py.get DISCIPLINE_TO_EXPERT_MAPPING "mathematics" = None /\
  get_expert_roles_for_disciplines [ "mathematics"; "Physics" ] 5 =
  Py.slice_to (Py.values DEFAULT_EXPERT_CONFIGS) 5.
Proof.
  split; [ reflexivity | ].
  apply (proj1 (proj2 expert_roles_default_roster)). reflexivity.
Defined.

Section PipelineRoster.

(** Every discipline of the taxonomy has at least two mapped role names,
    and the roles at positions 3 and 4 derived for it are among them. *)
Lemma canonical_name_roster (z : Z) (d : DisciplineDefinition.t) (others : list string) :
  get_discipline_by_id z = Some d ->
  let suggested :=
    Py.get_default DISCIPLINE_TO_EXPERT_MAPPING (DisciplineDefinition.name d) [] in
  exists r1 r2 r3 r4 r5 : ExpertRole.t,
    get_expert_roles_for_disciplines (DisciplineDefinition.name d :: others) 5 =
      [ r1; r2; r3; r4; r5 ] /\
    In (ExpertRole.name r3) suggested /\
    In (ExpertRole.name r4) suggested.
Proof.
  intro H. pose proof (get_discipline_by_id_Some z d H) as [Hz _].
  assert (Hcases : z = 1 \/ z = 2 \/ z = 3 \/ z = 4 \/ z = 5 \/ z = 6 \/ z = 7 \/
                   z = 8 \/ z = 9 \/ z = 10 \/ z = 11 \/ z = 12 \/ z = 13 \/
                   z = 14 \/ z = 15 \/ z = 16 \/ z = 17 \/ z = 18 \/ z = 19 \/
                   z = 20 \/ z = 21 \/ z = 22 \/ z = 23) by lia.
  clear Hz.
  repeat destruct Hcases as [ -> | Hcases ]; try subst z;
    injection H as <-;
    (do 5 eexists; split; [ reflexivity | split; simpl; tauto ]).
Qed.

End PipelineRoster.

(** X13. For every classification [classify_paper] returns, the roster
    derived from its discipline names with target 5 has five roles, and its
    roles at positions 3 and 4 are roles mapped to the primary discipline:
    the generic third and fourth roles of the default roster are never
    used. *)
Theorem classify_paper_roster (file : output_file) (classification_id : string) :
  let c := classify_paper file classification_id in
  exists (primary : DisciplineResult.t) (r1 r2 r3 r4 r5 : ExpertRole.t),
    get_primary_discipline c = Some primary /\
    get_expert_roles_for_disciplines
      (DisciplineClassification.get_discipline_names c) 5 = [ r1; r2; r3; r4; r5 ] /\
    In (ExpertRole.name r3)
       (Py.get_default DISCIPLINE_TO_EXPERT_MAPPING (DisciplineResult.name primary) []) /\
    In (ExpertRole.name r4)
       (Py.get_default DISCIPLINE_TO_EXPERT_MAPPING (DisciplineResult.name primary) []).
Proof.
  intro c.
  assert (Hcan : Forall canonical (DisciplineClassification.disciplines c)).
  { subst c. unfold classify_paper. cbn [DisciplineClassification.disciplines].
    apply validated_disciplines_canonical. }
  pose proof (classify_paper_head file classification_id) as Hshape.
  fold c in Hshape. cbv zeta in Hshape.
  destruct Hshape as [first [others [Hds [Hprimary Hnames]]]].
  rewrite Hds in Hcan. apply Forall_cons_iff in Hcan as [[d [Hd Hname]] _].
  destruct (canonical_name_roster _ d (map DisciplineResult.name others) Hd)
    as [r1 [r2 [r3 [r4 [r5 [Hroles [H3 H4]]]]]]].
  exists first, r1, r2, r3, r4, r5.
  rewrite Hnames, Hname. auto.
Qed.

(* ------------------------------------------------------------------ *)
(** * Sorting the sections of a paper *)

Section SortedFacts.

Context {A : Type} (key : A -> Z).

Lemma insert_sorted_perm (x : A) (l : list A) :
  Permutation (PySeq.insert_sorted key x l) (x :: l).
Proof.
  induction l as [ | y l IH ]; simpl.
  - apply Permutation_refl.
  - destruct (key y <? key x).
    + apply Permutation_trans with (y :: x :: l).
      * now apply perm_skip.
      * apply perm_swap.
    + apply Permutation_refl.
Qed.

Lemma sorted_perm (l : list A) : Permutation (PySeq.sorted key l) l.
Proof.
  induction l as [ | x l IH ]; simpl.
  - apply perm_nil.
  - apply Permutation_trans with (x :: PySeq.sorted key l).
    + apply insert_sorted_perm.
    + now apply perm_skip.
Qed.

Lemma insert_sorted_sorted (x : A) (l : list A) :
  StronglySorted (fun a b => key a <= key b) l ->
  StronglySorted (fun a b => key a <= key b) (PySeq.insert_sorted key x l).
Proof.
  induction l as [ | y l IH ]; simpl; intro Hs.
  - constructor; constructor.
  - apply StronglySorted_inv in Hs as [Hs Hy].
    destruct (Z.ltb_spec (key y) (key x)) as [Hlt | Hge].
    + constructor; [ now apply IH | ].
      apply Permutation_Forall with (x :: l).
      * apply Permutation_sym, insert_sorted_perm.
      * constructor; [ lia | exact Hy ].
    + constructor; [ now constructor | ].
      constructor; [ exact Hge | ].
      revert Hy. apply Forall_impl. intros z Hz. lia.
Qed.

Lemma sorted_sorted (l : list A) :
  StronglySorted (fun a b => key a <= key b) (PySeq.sorted key l).
Proof.
  induction l as [ | x l IH ]; simpl.
  - constructor.
  - now apply insert_sorted_sorted.
Qed.

(** A list already in order is returned as it is. *)
Lemma sorted_of_sorted (l : list A) :
  StronglySorted (fun a b => key a <= key b) l -> PySeq.sorted key l = l.
Proof.
  induction 1 as [ | x l Hs IH Hx ]; [ reflexivity | ].
  simpl. rewrite IH.
  destruct l as [ | y l ]; [ reflexivity | ].
  simpl. apply Forall_cons_iff in Hx as [Hxy _].
  destruct (Z.ltb_spec (key y) (key x)); [ lia | reflexivity ].
Qed.

(** In order, with pairwise distinct keys, there is one arrangement only. *)
Lemma sorted_unique (l1 : list A) :
  forall l2 : list A,
    StronglySorted (fun a b => key a <= key b) l1 ->
    StronglySorted (fun a b => key a <= key b) l2 ->
    Permutation l1 l2 ->
    NoDup (map key l1) ->
    l1 = l2.
Proof.
  induction l1 as [ | a l1 IH ]; intros l2 H1 H2 Hp Hd.
  - now apply Permutation_nil in Hp.
  - destruct l2 as [ | b l2 ].
    + apply Permutation_sym, Permutation_nil in Hp. discriminate.
    + apply StronglySorted_inv in H1 as [H1 Ha].
      apply StronglySorted_inv in H2 as [H2 Hb].
      cbn [map] in Hd. apply NoDup_cons_iff in Hd as [Hnotin Hd].
      assert (Hab : a = b).
      { assert (Hina : In a (b :: l2))
          by (apply (Permutation_in _ Hp); now left).
        assert (Hinb : In b (a :: l1))
          by (apply (Permutation_in _ (Permutation_sym Hp)); now left).
        destruct Hina as [ Hba | Hina ]; [ now symmetry | ].
        destruct Hinb as [ Hab | Hinb ]; [ exact Hab | ].
        exfalso. apply Hnotin.
        assert (Hkey : key a = key b).
        { apply (proj1 (Forall_forall _ _) Hb) in Hina.
          apply (proj1 (Forall_forall _ _) Ha) in Hinb. lia. }
        rewrite Hkey. now apply in_map. }
      subst b. f_equal.
      apply IH; try assumption.
      now apply Permutation_cons_inv in Hp.
Qed.

Lemma sorted_permutation_invariant (l1 l2 : list A) :
  Permutation l1 l2 ->
  NoDup (map key l1) ->
  PySeq.sorted key l1 = PySeq.sorted key l2.
Proof.
  intros Hp Hd. apply sorted_unique.
  - apply sorted_sorted.
  - apply sorted_sorted.
  - apply Permutation_trans with l1; [ apply sorted_perm | ].
    apply Permutation_trans with l2; [ exact Hp | ].
    apply Permutation_sym, sorted_perm.
  - apply Permutation_NoDup with (map key l1); [ | exact Hd ].
    apply Permutation_map, Permutation_sym, sorted_perm.
Qed.

End SortedFacts.

(** X14. The text built from the sections of a paper does not depend on
    the order in which the sections are given, as long as their ordering
    keys are pairwise distinct: this holds for the markdown of
    [_build_paper_markdown] and for [get_full_text].  Sections given in the
    order of their keys, as [_parse_from_structured_content] returns them,
    are laid out in the order given. *)
Theorem paper_text_follows_section_order :
  (forall sections sections' : list PaperSection.t,
      Permutation sections sections' ->
      NoDup (map PaperSection.section_order sections) ->
      _build_paper_markdown sections = _build_paper_markdown sections' /\
      forall title abstract keywords methodology domain potential content_id file_id,
        PaperContent.get_full_text
          (PaperContent.mk title abstract keywords sections
             methodology domain potential content_id file_id) =
        PaperContent.get_full_text
          (PaperContent.mk title abstract keywords sections'
             methodology domain potential content_id file_id)) /\
  (forall sections : list PaperSection.t,
      _build_paper_markdown (PySeq.sorted PaperSection.section_order sections) =
      _build_paper_markdown sections) /\
  (forall sections : list PaperSection.t,
      StronglySorted
        (fun a b => PaperSection.section_order a <= PaperSection.section_order b)
        sections ->
      _build_paper_markdown sections =
      PyStr.join (String PyStr.LF "")
        (flat_map (fun section =>
                     [ ("## " ++ PaperSection.section_name section)%string;
                       "";
                       PaperSection.content section;
                       "" ])
                  sections)).
Proof.
  split; [ | split ].
  - intros sections sections' Hp Hd.
    pose proof (sorted_permutation_invariant PaperSection.section_order _ _ Hp Hd) as E.
    split.
    + unfold _build_paper_markdown. now rewrite E.
    + intros. unfold PaperContent.get_full_text.
      cbn [PaperContent.sections PaperContent.title PaperContent.abstract
           PaperContent.keywords].
      now rewrite E.
  - intro sections. unfold _build_paper_markdown.
    now rewrite (sorted_of_sorted _ _ (sorted_sorted PaperSection.section_order sections)).
  - intros sections Hs. unfold _build_paper_markdown.
    now rewrite (sorted_of_sorted _ _ Hs).
Qed.

(** Two sections given in either order. *)
Lemma paper_text_follows_section_order_witness :
  _build_paper_markdown
    [ PaperSection.mk "s2" "Methods" "methods" "We measure." 2;
      PaperSection.mk "s1" "Introduction" "introduction" "We ask." 1 ] =
  _build_paper_markdown
    [ PaperSection.mk "s1" "Introduction" "introduction" "We ask." 1;
      PaperSection.mk "s2" "Methods" "methods" "We measure." 2 ].
Proof.
  apply (proj1 paper_text_follows_section_order).
  - apply perm_swap.
  - repeat constructor; simpl; intuition discriminate.
Defined.

(* ------------------------------------------------------------------ *)
(** * The text of a section and the section list *)

Section ContentFacts.

Variable str : pyvalue -> string.

Lemma get_public_items (d : Py.dict string pyvalue) (key : string) :
  PyStr.startswith key "_" = false ->
  Py.get (public_items d) key = Py.get d key.
Proof.
  intro Hkey. induction d as [ | [k v] d IH ]; [ reflexivity | ].
  unfold public_items in *. cbn [filter fst].
  destruct (PyStr.startswith k "_") eqn:Ek; cbn [negb Py.get].
  - rewrite IH.
    destruct (Py.key_eqb_spec k key) as [ -> | _ ]; [ congruence | reflexivity ].
  - now rewrite IH.
Qed.

Lemma content_key_loop_public (keys : list string) (d : Py.dict string pyvalue) :
  Forall (fun key => PyStr.startswith key "_" = false) keys ->
  content_key_loop str keys (public_items d) = content_key_loop str keys d.
Proof.
  induction 1 as [ | key keys Hkey _ IH ]; [ reflexivity | ].
  cbn [content_key_loop]. now rewrite (get_public_items d key Hkey), IH.
Qed.

Lemma content_parts_loop_public (d : Py.dict string pyvalue) :
  content_parts_loop str (public_items d) = content_parts_loop str d.
Proof.
  induction d as [ | [k v] d IH ]; [ reflexivity | ].
  unfold public_items in *. cbn [filter fst content_parts_loop].
  destruct (PyStr.startswith k "_") eqn:Ek; cbn [negb].
  - exact IH.
  - cbn [content_parts_loop]. rewrite Ek. cbn [negb]. now rewrite IH.
Qed.

Lemma content_key_loop_first (before after : list string) (key : string)
    (d : Py.dict string pyvalue) (value : pyvalue) :
  Forall (fun k => Py.get d k = None) before ->
  Py.get d key = Some value ->
  content_key_loop str (before ++ key :: after) d = Some (str value).
Proof.
  intros Hbefore Hkey.
  induction Hbefore as [ | k before Hk _ IH ]; cbn [app content_key_loop].
  - now rewrite Hkey.
  - now rewrite Hk.
Qed.

Lemma content_key_loop_none (keys : list string) (d : Py.dict string pyvalue) :
  Forall (fun k => Py.get d k = None) keys ->
  content_key_loop str keys d = None.
Proof.
  induction 1 as [ | k keys Hk _ IH ]; cbn [content_key_loop]; [ reflexivity | ].
  now rewrite Hk.
Qed.

End ContentFacts.

(** X15. The text of a content mapping is the value (rendered by [str])
    under the first of the keys markdown, text, value, raw_content,
    paragraph that the mapping has, whatever else it holds.  Items whose key
    starts with an underscore never contribute: removing them changes
    nothing.  A mapping that has only such items gives the empty text. *)
Theorem extract_content_text_priority (str : pyvalue -> string) :
  (forall (d : Py.dict string pyvalue) (before after : list string)
          (key : string) (value : pyvalue),
      content_keys = before ++ key :: after ->
      Forall (fun k => Py.get d k = None) before ->
      Py.get d key = Some value ->
      _extract_content_text str (ContentDict d) = str value) /\
  (forall d : Py.dict string pyvalue,
      _extract_content_text str (ContentDict (public_items d)) =
      _extract_content_text str (ContentDict d)) /\
  (forall d : Py.dict string pyvalue,
      public_items d = [] ->
      _extract_content_text str (ContentDict d) = "").
Proof.
  assert (Hpublic : forall d : Py.dict string pyvalue,
             _extract_content_text str (ContentDict (public_items d)) =
             _extract_content_text str (ContentDict d)).
  { intro d. unfold _extract_content_text.
    rewrite content_key_loop_public, content_parts_loop_public; [ reflexivity | ].
    repeat constructor. }
  split; [ | split; [ exact Hpublic | ] ].
  - intros d before after key value Hkeys Hbefore Hkey.
    unfold _extract_content_text. rewrite Hkeys.
    now rewrite (content_key_loop_first str before after key d value Hbefore Hkey).
  - intros d Hd. rewrite <- Hpublic, Hd. reflexivity.
Qed.

(** A mapping with a private item, a [text] and a [markdown]: the
    [markdown] wins. *)
Lemma extract_content_text_priority_witness :
  _extract_content_text
    (fun v => match v with VStr s => s | _ => "" end)
    (ContentDict [ ("_rev", VStr "7"); ("text", VStr "plain");
                   ("markdown", VStr "# rich") ]) = "# rich".
Proof.
  apply (proj1 (extract_content_text_priority
                  (fun v => match v with VStr s => s | _ => "" end))
           [ ("_rev", VStr "7"); ("text", VStr "plain"); ("markdown", VStr "# rich") ]
           [] [ "text"; "value"; "raw_content"; "paragraph" ] "markdown"
           (VStr "# rich")).
  - reflexivity.
  - constructor.
  - reflexivity.
Defined.

Section SectionTypeRange.

Variable lower : string -> string.

Lemma type_loop_In (mappings : Py.dict string (list string)) (name_lower t : string) :
  type_loop mappings name_lower = Some t -> In t (map fst mappings).
Proof.
  induction mappings as [ | [section_type keywords] mappings IH ]; simpl;
    [ discriminate | ].
  destruct (keyword_loop keywords name_lower).
  - intros [= <-]. now left.
  - intro H. right. now apply IH.
Qed.

Lemma infer_section_type_range (section_name default_type : string) :
  In (_infer_section_type lower section_name default_type) (map fst type_mappings) \/
  (default_type <> "" /\ _infer_section_type lower section_name default_type = default_type) \/
  (default_type = "" /\ _infer_section_type lower section_name default_type = "content").
Proof.
  unfold _infer_section_type.
  destruct (type_loop type_mappings (lower section_name)) as [t | ] eqn:E.
  - left. now apply type_loop_In in E.
  - right. destruct default_type; [ right; now split | left; split; [ discriminate | reflexivity ] ].
Qed.

Lemma infer_section_type_not_empty (section_name default_type : string) :
  _infer_section_type lower section_name default_type <> "".
Proof.
  destruct (infer_section_type_range section_name default_type)
    as [ Hin | [ [Hd ->] | [_ ->] ] ]; [ | exact Hd | discriminate ].
  simpl in Hin.
  repeat (destruct Hin as [ <- | Hin ]; [ discriminate | ]). destruct Hin.
Qed.

End SectionTypeRange.

(** X16. The inferred type of a section is never the empty string: it is
    one of the eight types of the keyword table, or the caller's default
    when that is not empty, or "content". *)
Theorem infer_section_type_values
    (lower : string -> string) (section_name default_type : string) :
  _infer_section_type lower section_name default_type <> "" /\
  (In (_infer_section_type lower section_name default_type)
      [ "introduction"; "methods"; "results"; "discussion"; "conclusion";
        "abstract"; "references"; "appendix" ] \/
   _infer_section_type lower section_name default_type = default_type \/
   _infer_section_type lower section_name default_type = "content").
Proof.
  split; [ apply infer_section_type_not_empty | ].
  destruct (infer_section_type_range lower section_name default_type)
    as [ Hin | [ [_ H] | [_ H] ] ]; [ left; exact Hin | right; now left | right; now right ].
Qed.

Section StructuredContentFacts.

Variable str : pyvalue -> string.
Variable lower : string -> string.

Lemma sections_loop_length (sections_data : list (section_listing * detail_result)) :
  forall idx : Z,
    List.length (sections_loop str lower idx sections_data) =
    List.length (filter detail_succeeded sections_data).
Proof.
  induction sections_data as [ | [section detail] rest IH ]; intro idx;
    [ reflexivity | ].
  cbn [sections_loop filter]. unfold detail_succeeded at 1. cbn [snd].
  destruct detail; [ apply IH | ].
  cbn [List.length]. now rewrite IH.
Qed.

Lemma sections_loop_types (sections_data : list (section_listing * detail_result)) :
  forall idx : Z,
    Forall (fun s => PaperSection.section_type s <> "")
           (sections_loop str lower idx sections_data).
Proof.
  induction sections_data as [ | [section detail] rest IH ]; intro idx;
    [ constructor | ].
  cbn [sections_loop]. destruct detail; [ apply IH | ].
  constructor; [ | apply IH ].
  apply infer_section_type_not_empty.
Qed.

End StructuredContentFacts.

(** X17. Reading a paper from the document store fails with [ValueError]
    when the section list cannot be obtained or is empty.  Otherwise it
    returns one section for every listed section whose detail call
    succeeded (none at all, and no error, when every detail call fails), in
    the order of their ordering keys, and every returned section has a
    non-empty type. *)
Theorem parse_from_structured_content_result
    (str : pyvalue -> string) (lower : string -> string) :
  _parse_from_structured_content str lower ListFailed = Raises ValueError /\
  _parse_from_structured_content str lower (ListSuccess []) = Raises ValueError /\
  (forall sections_data : list (section_listing * detail_result),
      sections_data <> [] ->
      exists sections : list PaperSection.t,
        _parse_from_structured_content str lower (ListSuccess sections_data) =
          Returns sections /\
        StronglySorted
          (fun a b => PaperSection.section_order a <= PaperSection.section_order b)
          sections /\
        List.length sections =
          List.length (filter detail_succeeded sections_data) /\
        Forall (fun s => PaperSection.section_type s <> "") sections /\
        _build_paper_markdown (PySeq.sorted PaperSection.section_order sections) =
          _build_paper_markdown sections).
Proof.
  split; [ reflexivity | split; [ reflexivity | ] ].
  intros sections_data Hne.
  exists (PySeq.sorted PaperSection.section_order (sections_loop str lower 0 sections_data)).
  split; [ destruct sections_data; [ congruence | reflexivity ] | ].
  split; [ apply sorted_sorted | ].
  split.
  - rewrite (Permutation_length (sorted_perm _ _)). apply sections_loop_length.
  - split.
    + apply Permutation_Forall with (sections_loop str lower 0 sections_data).
      * apply Permutation_sym, sorted_perm.
      * apply sections_loop_types.
    + unfold _build_paper_markdown.
      now rewrite (sorted_of_sorted _ _ (sorted_sorted PaperSection.section_order _)).
Qed.

(** Two listed sections, the detail call of the first of which fails. *)
Lemma parse_from_structured_content_result_witness :
  exists sections : list PaperSection.t,
    _parse_from_structured_content
      (fun v => match v with VStr s => s | _ => "" end) Py.lower
      (ListSuccess
         [ ({| listing_id := Some "a"; listing_section_id := None;
               listing_name := Some "Intro"; listing_section_name := None;
               listing_type := None; listing_section_type := None;
               listing_order := Some 0; listing_section_order := None |},
            DetailFailed);
           ({| listing_id := Some "b"; listing_section_id := None;
               listing_name := Some "Funding"; listing_section_name := None;
               listing_type := Some ""; listing_section_type := Some "";
               listing_order := Some 0; listing_section_order := None |},
            DetailSuccess (Some (ContentStr "Grant 12"))) ]) = Returns sections /\
    List.length sections = 1%nat /\
    Forall (fun s => PaperSection.section_type s <> "") sections.
Proof.
  destruct (proj2 (proj2 (parse_from_structured_content_result
                            (fun v => match v with VStr s => s | _ => "" end)
                            Py.lower))
              [ ({| listing_id := Some "a"; listing_section_id := None;
                    listing_name := Some "Intro"; listing_section_name := None;
                    listing_type := None; listing_section_type := None;
                    listing_order := Some 0; listing_section_order := None |},
                 DetailFailed);
                ({| listing_id := Some "b"; listing_section_id := None;
                    listing_name := Some "Funding"; listing_section_name := None;
                    listing_type := Some ""; listing_section_type := Some "";
                    listing_order := Some 0; listing_section_order := None |},
                 DetailSuccess (Some (ContentStr "Grant 12"))) ])
    as [sections [Hret [_ [Hlen [Htypes _]]]]]; [ discriminate | ].
  exists sections. split; [ exact Hret | split; [ exact Hlen | exact Htypes ] ].
Defined.

(* ------------------------------------------------------------------ *)
(** * The heuristic extraction *)

Section IndexFacts.

Lemma index_In (x : string) (l : list string) :
  In x l -> exists i, PySeq.index x l = Some i.
Proof.
  induction l as [ | y l IH ]; [ contradiction | ].
  cbn [PySeq.index]. intro H.
  destruct (Py.key_eqb_spec y x) as [ _ | Hne ]; [ now exists O | ].
  destruct H as [ H | H ]; [ contradiction | ].
  destruct (IH H) as [i ->]. now exists (S i).
Qed.


Lemma index_first (x : string) (before after : list string) :
  ~ In x before ->
  PySeq.index x (before ++ x :: after) = Some (List.length before).
Proof.
  induction before as [ | y before IH ]; intro H; cbn [app PySeq.index List.length].
  - destruct (Py.key_eqb_spec x x); [ reflexivity | congruence ].
  - destruct (Py.key_eqb_spec y x) as [ -> | _ ]; [ exfalso; apply H; now left | ].
    rewrite IH; [ reflexivity | ]. intro Hin. apply H. now right.
Qed.

End IndexFacts.

Section BasicExtractionFacts.

Variables strip lower : string -> string.
Variable lines : list string.

(** Lines that, stripped, are lines of the text never make the loop
    fail. *)
Lemma basic_extraction_loop_returns (rest : list string) :
  Forall (fun line => In (strip line) lines) rest ->
  forall title abstract,
  exists result, basic_extraction_loop strip lower lines rest title abstract = Returns result.
Proof.
  induction 1 as [ | line rest Hline _ IH ]; intros title abstract;
    cbn [basic_extraction_loop].
  - now eexists.
  - destruct (PyStr.startswith (strip line) "# " && PyStr.is_empty title);
      [ apply IH | ].
    destruct (Py.str_in "abstract" (lower (strip line)) && PyStr.is_empty abstract);
      [ | apply IH ].
    destruct (index_In _ _ Hline) as [idx ->].
    destruct (idx + 1 <? List.length lines)%nat; now eexists.
Qed.

(** Plain lines are passed over. *)
Lemma basic_extraction_loop_plain (before rest : list string) :
  Forall (plain_line strip lower) before ->
  basic_extraction_loop strip lower lines (before ++ rest) "" "" =
  basic_extraction_loop strip lower lines rest "" "".
Proof.
  induction 1 as [ | line before [Hhead Habs] _ IH ]; [ reflexivity | ].
  cbn [app basic_extraction_loop]. now rewrite Hhead, Habs.
Qed.

(** Lines that do not mention the abstract at most set the title. *)
Lemma basic_extraction_loop_no_abstract (before rest : list string) :
  Forall (fun line =>
            Py.str_in "abstract" (lower (strip line)) = false) before ->
  forall title,
  exists title',
    basic_extraction_loop strip lower lines (before ++ rest) title "" =
    basic_extraction_loop strip lower lines rest title' "".
Proof.
  induction 1 as [ | line before Habs _ IH ]; intro title.
  - now exists title.
  - cbn [app basic_extraction_loop]. rewrite Habs. cbn [andb].
    destruct (PyStr.startswith (strip line) "# " && PyStr.is_empty title);
      apply IH.
Qed.

End BasicExtractionFacts.

Section AbstractLinesFacts.

Lemma firstn_min_length {A} (n : nat) (l : list A) :
  firstn (Nat.min n (List.length l)) l = firstn n l.
Proof.
  destruct (Nat.le_ge_cases n (List.length l)) as [H | H].
  - now rewrite Nat.min_l.
  - rewrite Nat.min_r by exact H.
    now rewrite firstn_all, firstn_all2.
Qed.

Lemma slice_after (before body : list string) (line : string) :
  PySeq.slice (before ++ line :: body) (List.length before + 1)
    (Nat.min (List.length before + 20) (List.length (before ++ line :: body))) =
  firstn 19 body.
Proof.
  unfold PySeq.slice.
  replace (List.length before + 1)%nat with (List.length (before ++ [line]))
    by (rewrite length_app; reflexivity).
  replace (before ++ line :: body) with ((before ++ [line]) ++ body)
    by (rewrite <- app_assoc; reflexivity).
  rewrite skipn_app, skipn_all, Nat.sub_diag. cbn [skipn app].
  rewrite <- (firstn_min_length 19 body). f_equal.
  rewrite !length_app. cbn [List.length]. lia.
Qed.

Lemma abstract_lines_loop_body (body rest : list string) :
  Forall (fun line => PyStr.startswith line "#" = false) body ->
  (List.length body <= 19)%nat ->
  match rest with
  | [] => True
  | next :: _ => List.length body = 19%nat \/ PyStr.startswith next "#" = true
  end ->
  abstract_lines_loop (firstn 19 (body ++ rest)) = body.
Proof.
  intros Hbody Hlen Hrest.
  assert (Hloop : forall l, Forall (fun line => PyStr.startswith line "#" = false) l ->
                            abstract_lines_loop l = l).
  { induction 1 as [ | x l Hx _ IH ]; [ reflexivity | ].
    cbn [abstract_lines_loop]. now rewrite Hx, IH. }
  assert (Hstop : forall l next more,
             Forall (fun line => PyStr.startswith line "#" = false) l ->
             PyStr.startswith next "#" = true ->
             abstract_lines_loop (l ++ next :: more) = l).
  { induction 1 as [ | x l Hx _ IH ]; intro Hnext; cbn [app abstract_lines_loop].
    - now rewrite Hnext.
    - now rewrite Hx, IH. }
  rewrite firstn_app.
  destruct rest as [ | next more ].
  - rewrite firstn_nil, app_nil_r, firstn_all2 by exact Hlen. now apply Hloop.
  - rewrite (firstn_all2 body) by exact Hlen.
    destruct Hrest as [ H19 | Hnext ].
    + rewrite H19, Nat.sub_diag. cbn [firstn]. rewrite app_nil_r. now apply Hloop.
    + destruct (19 - List.length body)%nat as [ | k ] eqn:Ek.
      * cbn [firstn]. rewrite app_nil_r. now apply Hloop.
      * cbn [firstn]. now apply Hstop.
Qed.

End AbstractLinesFacts.

Section ExtractedShape.

Variables strip lower : string -> string.

(** What a returned dictionary of the heuristic extraction looks like. *)
Lemma basic_extraction_shape (paper_markdown : string) (extracted : features) :
  _basic_extraction strip lower paper_markdown = Returns extracted ->
  exists title abstract : string,
    title <> "" /\
    extracted =
      {| features_title := Some title;
         features_abstract := Some abstract;
         features_keywords := Some [];
         features_methodology_terms := Some [];
         features_domain_terms := Some [];
         features_potential_disciplines := Some [] |}.
Proof.
  unfold _basic_extraction.
  destruct (basic_extraction_loop strip lower _ _ "" "") as [[title abstract] | e];
    [ | discriminate ].
  intros [= <-]. exists (Py.str_or title "Untitled Paper"), abstract.
  split; [ | reflexivity ].
  destruct title; discriminate.
Qed.

Lemma split_not_nil (s : string) (sep : ascii) : PyStr.split s sep <> [].
Proof.
  destruct s as [ | c s ]; cbn [PyStr.split]; [ discriminate | ].
  destruct (Ascii.eqb c sep); [ discriminate | ].
  destruct (PyStr.split s sep); discriminate.
Qed.

End ExtractedShape.

(** X18. The heuristic extraction does not fail on a text none of whose
    lines has leading or trailing whitespace.  Whenever it returns, the
    title is not empty and the four lists are empty; on a text without a
    first-level heading and without a mention of the abstract (the empty
    text is one) it returns the title "Untitled Paper" and the empty
    abstract. *)
Theorem basic_extraction_result (strip lower : string -> string) :
  (forall paper_markdown : string,
      Forall (fun line => strip line = line)
             (PyStr.split paper_markdown PyStr.LF) ->
      exists extracted, _basic_extraction strip lower paper_markdown = Returns extracted) /\
  (forall (paper_markdown : string) (extracted : features),
      _basic_extraction strip lower paper_markdown = Returns extracted ->
      exists title abstract : string,
        title <> "" /\
        extracted =
          {| features_title := Some title;
             features_abstract := Some abstract;
             features_keywords := Some [];
             features_methodology_terms := Some [];
             features_domain_terms := Some [];
             features_potential_disciplines := Some [] |}) /\
  (forall paper_markdown : string,
      Forall (plain_line strip lower) (PyStr.split paper_markdown PyStr.LF) ->
      _basic_extraction strip lower paper_markdown =
        Returns
          {| features_title := Some "Untitled Paper";
             features_abstract := Some "";
             features_keywords := Some [];
             features_methodology_terms := Some [];
             features_domain_terms := Some [];
             features_potential_disciplines := Some [] |}).
Proof.
  split; [ | split ].
  - intros paper_markdown Hlines. unfold _basic_extraction.
    set (lines := PyStr.split paper_markdown PyStr.LF) in *.
    destruct (basic_extraction_loop_returns strip lower lines lines) with (title := "") (abstract := "")
      as [[title abstract] ->].
    + apply Forall_forall. intros line Hin.
      rewrite (proj1 (Forall_forall _ _) Hlines line Hin). exact Hin.
    + now eexists.
  - exact (basic_extraction_shape strip lower).
  - intros paper_markdown Hplain. unfold _basic_extraction.
    pose proof (basic_extraction_loop_plain strip lower
                  (PyStr.split paper_markdown PyStr.LF) _ [] Hplain) as H.
    rewrite app_nil_r in H. rewrite H. reflexivity.
Qed.

(** The empty text, and a text of two plain lines; the texts are ASCII, on
    which the two methods are [PyStr.ascii_strip] and [Py.lower]. *)
Lemma basic_extraction_result_witness :
  (exists extracted,
      _basic_extraction PyStr.ascii_strip Py.lower "" = Returns extracted) /\
  _basic_extraction PyStr.ascii_strip Py.lower
    (String "N" (String "o" (String PyStr.LF "text"))) =
    Returns
      {| features_title := Some "Untitled Paper";
         features_abstract := Some "";
         features_keywords := Some [];
         features_methodology_terms := Some [];
         features_domain_terms := Some [];
         features_potential_disciplines := Some [] |}.
Proof.
  split.
  - apply (proj1 (basic_extraction_result PyStr.ascii_strip Py.lower) "").
    repeat constructor.
  - apply (proj2 (proj2 (basic_extraction_result PyStr.ascii_strip Py.lower))).
    repeat constructor.
Defined.



(** X20. On a paper whose first line mentioning the abstract has no
    surrounding whitespace and is not a first-level heading, the
    heuristic extraction returns as abstract the lines that follow it, up
    to the next line starting with a heading marker and at most 19 of them,
    joined by line feeds and stripped; the abstract is empty when that
    heading is the last line. *)
Theorem basic_extraction_abstract
    (strip lower : string -> string)
    (paper_markdown : string) (before body rest : list string) (heading : string) :
  PyStr.split paper_markdown PyStr.LF = before ++ heading :: body ++ rest ->
  Forall (fun line =>
            Py.str_in "abstract" (lower (strip line)) = false) before ->
  strip heading = heading ->
  PyStr.startswith heading "# " = false ->
  Py.str_in "abstract" (lower heading) = true ->
  Forall (fun line => PyStr.startswith line "#" = false) body ->
  (List.length body <= 19)%nat ->
  match rest with
  | [] => True
  | next :: _ => List.length body = 19%nat \/ PyStr.startswith next "#" = true
  end ->
  exists title : string,
    _basic_extraction strip lower paper_markdown =
      Returns
        {| features_title := Some title;
           features_abstract :=
             Some (match body ++ rest with
                   | [] => ""
                   | _ :: _ => strip (PyStr.join (String PyStr.LF "") body)
                   end);
           features_keywords := Some [];
           features_methodology_terms := Some [];
           features_domain_terms := Some [];
           features_potential_disciplines := Some [] |}.
Proof.
  intros Hsplit Hbefore Hstrip Hhead Habs Hbody Hlen Hrest.
  unfold _basic_extraction. cbv zeta.
  set (lines := PyStr.split paper_markdown PyStr.LF) in *.
  assert (Hnotin : ~ In heading before).
  { intro Hin. apply (proj1 (Forall_forall _ _) Hbefore) in Hin.
    rewrite Hstrip in Hin. congruence. }
  destruct (basic_extraction_loop_no_abstract strip lower lines before
              (heading :: body ++ rest) Hbefore "") as [title Hloop].
  clearbody lines.
  replace (basic_extraction_loop strip lower lines lines "" "")
    with (basic_extraction_loop strip lower lines (before ++ heading :: body ++ rest) "" "")
    by (f_equal; now symmetry).
  rewrite Hloop.
  cbn [basic_extraction_loop]. rewrite Hstrip, Hhead, Habs. cbn [andb PyStr.is_empty].
  rewrite Hsplit.
  rewrite (index_first heading before (body ++ rest) Hnotin).
  rewrite slice_after, (abstract_lines_loop_body body rest Hbody Hlen Hrest).
  exists (Py.str_or title "Untitled Paper").
  destruct (List.length before + 1 <? List.length (before ++ heading :: body ++ rest))%nat
    eqn:E.
  - apply Nat.ltb_lt in E. rewrite length_app in E. cbn [List.length] in E.
    destruct (body ++ rest); [ cbn [List.length] in E; lia | reflexivity ].
  - apply Nat.ltb_ge in E. rewrite length_app in E. cbn [List.length] in E.
    destruct (body ++ rest); [ reflexivity | cbn [List.length] in E; lia ].
Qed.

(** A paper with a title, an abstract of two lines and an introduction. *)
Lemma basic_extraction_abstract_witness :
  exists title : string,
    _basic_extraction PyStr.ascii_strip Py.lower
      (PyStr.join (String PyStr.LF "")
         [ "# A Study"; ""; "## Abstract"; "We study."; "We find.";
           "## Introduction"; "Text" ]) =
      Returns
        {| features_title := Some title;
           features_abstract := Some (String "W" (String "e" (String " "
             (String "s" (String "t" (String "u" (String "d" (String "y"
             (String "." (String PyStr.LF "We find."))))))))));
           features_keywords := Some [];
           features_methodology_terms := Some [];
           features_domain_terms := Some [];
           features_potential_disciplines := Some [] |}.
Proof.
  apply (basic_extraction_abstract PyStr.ascii_strip Py.lower
           _ [ "# A Study"; "" ] [ "We study."; "We find." ]
           [ "## Introduction"; "Text" ] "## Abstract").
  - reflexivity.
  - repeat constructor.
  - reflexivity.
  - reflexivity.
  - reflexivity.
  - repeat constructor.
  - simpl. lia.
  - right. reflexivity.
Defined.



(* ------------------------------------------------------------------ *)
(** * Debug phases *)

(** X22. Without a debug-phase setting (none, or the empty string) no
    phase is skipped.  With any other setting a phase is skipped exactly
    when none of the comma-separated pieces of the setting, stripped and
    lower-cased, is its name: a setting that names no phase skips every
    phase. *)
Theorem debug_phases_skip (strip lower : string -> string) (phase : string) :
  skips_phase (_parse_debug_phases strip lower None) phase = false /\
  skips_phase (_parse_debug_phases strip lower (Some "")) phase = false /\
  (forall setting : string,
      setting <> "" ->
      (skips_phase (_parse_debug_phases strip lower (Some setting)) phase = true <->
       forall piece : string,
         In piece (PyStr.split setting ","%char) ->
         lower (strip piece) <> phase)).
Proof.
  split; [ reflexivity | split; [ reflexivity | ] ].
  intros setting Hne. unfold skips_phase, _parse_debug_phases.
  destruct setting as [ | c setting ]; [ congruence | ].
  set (found := existsb (String.eqb phase)
                  (map (fun p => lower (strip p))
                       (PyStr.split (String c setting) ","%char))).
  assert (Hfound : found = true <->
                   exists piece, In piece (PyStr.split (String c setting) ","%char) /\
                                 lower (strip piece) = phase).
  { unfold found. rewrite existsb_exists. split.
    - intros [x [Hin Hx]]. apply in_map_iff in Hin as [p [Hp Hin]].
      apply String.eqb_eq in Hx. exists p. split; [ exact Hin | congruence ].
    - intros [p [Hin Hp]]. exists (lower (strip p)). split.
      + exact (in_map (fun q => lower (strip q)) _ p Hin).
      + rewrite Hp. apply String.eqb_refl. }
  pose proof (split_not_nil (String c setting) ","%char) as Hpieces.
  destruct (map (fun p => lower (strip p))
                (PyStr.split (String c setting) ","%char)) as [ | x l ] eqn:E.
  - destruct (PyStr.split (String c setting) ","%char); [ congruence | discriminate E ].
  - cbn [negb andb]. rewrite negb_true_iff. split.
    + intros H p Hin Hp.
      assert (found = true) by (apply Hfound; now exists p). congruence.
    + intro H. destruct found eqn:Ef; [ | reflexivity ].
      destruct (proj1 Hfound eq_refl) as [p [Hin Hp]].
      exfalso. now apply (H p Hin).
Qed.

(** The setting "Classifier , x" names the classifier phase and not the
    parser phase. *)
Lemma debug_phases_skip_witness :
  skips_phase
    (_parse_debug_phases PyStr.ascii_strip Py.lower (Some "Classifier , x"))
    "parser" = true.
Proof.
  apply (proj2 (proj2 (debug_phases_skip PyStr.ascii_strip Py.lower "parser"))
           "Classifier , x").
  - discriminate.
  - simpl. intros piece [ <- | [ <- | [] ] ]; discriminate.
Defined.
